(** * Event-ticket wallet service: field normalisation and the create-ticket endpoint

    A shallow embedding of [src/main.py] ([handle_options], [create_class],
    the route handler of [/create-ticket/]) and of the three methods of
    [DemoEventTicket] in [src/utils/event_ticket.py] that the handler calls
    ([create_class], [create_object], [create_jwt_existing_objects]).

    JSON-decoded Python values are an inductive type, dictionaries are
    finite maps with string keys, Python exceptions are an error monad, and
    the calls to the wallet API client are recorded in a writer monad, so
    that statements about which outbound operations were performed can be
    made. *)

From Stdlib Require Import ZArith String List Bool Lia.
From stdpp Require Import base option gmap strings list fin_maps.

Open Scope Z_scope.
Open Scope string_scope.
Open Scope list_scope.

(** ** Python values *)

(** What [json] decoding produces, and what the handler passes around:
    [None], booleans, integers, floats (mantissa and exponent, the code never
    computes with them), strings, lists and dictionaries keyed by strings. *)
#[warnings="-register-all"]
Inductive pyval : Type :=
  | VNone
  | VBool (b : bool)
  | VInt (n : Z)
  | VFloat (m e : Z)
  | VStr (s : string)
  | VList (l : list pyval)
  | VDict (d : gmap string pyval).

(** The exceptions the modelled code can meet. [HttpError] is the API
    client's error, with its [status_code] and [error_details]; [OtherError]
    stands for any other exception class (transport failures, werkzeug's
    [BadRequest] raised by [request.get_json], ...). *)
Inductive exn : Type :=
  | TypeError
  | KeyError
  | HttpError (status_code : Z) (error_details : pyval)
  | OtherError.

Inductive res (A : Type) : Type :=
  | Ok (a : A)
  | Raise (e : exn).
Arguments Ok {A} a.
Arguments Raise {A} e.

Definition res_bind {A B} (x : res A) (f : A -> res B) : res B :=
  match x with
  | Ok a => f a
  | Raise e => Raise e
  end.

Notation "'let!' x ':=' c1 'in' c2" := (res_bind c1 (fun x => c2))
  (at level 10, x name, c1 at level 100, c2 at level 200).

Definition returns {A} (x : res A) : Prop := exists a, x = Ok a.
Definition raises {A} (x : res A) : Prop := exists e, x = Raise e.

(** [foldM]: a Python [for] loop whose body may raise. *)
Fixpoint foldM {A B} (f : A -> B -> res A) (acc : A) (l : list B) : res A :=
  match l with
  | [] => Ok acc
  | b :: l' => let! acc' := f acc b in foldM f acc' l'
  end.

(** ** Python operators on values *)

(** [needle in hay] for two [str]: substring test. *)
Fixpoint str_contains (needle hay : string) : bool :=
  String.prefix needle hay ||
  match hay with
  | EmptyString => false
  | String _ hay' => str_contains needle hay'
  end.

(** [v == ""]: only the empty [str] equals the empty string. *)
Definition eq_empty_str (v : pyval) : bool :=
  match v with
  | VStr s => String.eqb s ""
  | _ => false
  end.

(** [key in data] with [key] a [str]: key membership for a dict, element
    membership for a list (a [str] equals only a [str]), substring test for a
    [str]; the other types are not iterable. *)
Definition py_in (key : string) (data : pyval) : res bool :=
  match data with
  | VDict d => Ok (bool_decide (is_Some (d !! key)))
  | VList l =>
      Ok (existsb (fun v => match v with
                            | VStr s => String.eqb key s
                            | _ => false
                            end) l)
  | VStr s => Ok (str_contains key s)
  | _ => Raise TypeError
  end.

(** [data[key]] with [key] a [str]: only a dict can be indexed by a string. *)
Definition getitem (data : pyval) (key : string) : res pyval :=
  match data with
  | VDict d =>
      match d !! key with
      | Some v => Ok v
      | None => Raise KeyError
      end
  | _ => Raise TypeError
  end.

(** [{**a, **b}]: both operands must be mappings; on a shared key [b] wins. *)
Definition dict_unpack (a b : pyval) : res (gmap string pyval) :=
  match a with
  | VDict da =>
      match b with
      | VDict db => Ok (db ∪ da)
      | _ => Raise TypeError
      end
  | _ => Raise TypeError
  end.

(** Iterating a value: a dict yields its keys. Only dicts are needed. *)
Definition dict_items (v : pyval) : list (string * pyval) :=
  match v with
  | VDict d => map_to_list d
  | _ => []
  end.

(** Truth value of an object, as [if x:] and [not x] take it. *)
Definition truthy (v : pyval) : bool :=
  match v with
  | VNone => false
  | VBool b => b
  | VInt n => negb (Z.eqb n 0)
  | VFloat m _ => negb (Z.eqb m 0)
  | VStr s => negb (String.eqb s "")
  | VList l => match l with [] => false | _ => true end
  | VDict d => negb (bool_decide (d = ∅))
  end.

(** A dict literal. *)
Definition dict_of (l : list (string * pyval)) : pyval :=
  VDict (list_to_map l).

(** ** [handle_options] (src/main.py) *)

Module Defaults.

Definition seat_items : list (string * pyval) :=
    [ ("row", VStr "0"); ("seat_no", VStr "0") ].

Definition seat : gmap string pyval := list_to_map seat_items.

(** The [defaults] literal, in source order. *)
Definition items : list (string * pyval) :=
    [ ("event_name", VStr "Event Name");
      ("banner", VStr "https://farm4.staticflickr.com/3723/11177041115_6e6a3b6f49_o.jpg");
      ("main_image", VStr "http://farm4.staticflickr.com/3738/12440799783_3dc3c20606_b.jpg");
      ("google_map_url", VStr "http://maps.google.com/");
      ("header_text", VStr "Text module header");
      ("body_text", VStr "Text module body");
      ("phone_number", VStr "9876543210");
      ("section", VStr "0");
      ("issuer_name", VStr "Issuer Name");
      ("gate", VStr "0");
      ("ticket_number", VStr "ABC123456789");
      ("ticket_holder_name", VStr "Ticket Holder Name");
      ("seat", VDict seat) ].

Definition keys : list string := items.*1.

End Defaults.

Definition defaults : gmap string pyval := list_to_map Defaults.items.

(** One turn of the inner loop [for sub_key in default_value]: [acc] is the
    dict stored at [result[key]], which nothing else refers to. *)
Definition sub_step (value : gmap string pyval) (acc : gmap string pyval)
    (kd : string * pyval) : gmap string pyval :=
  let '(sub_key, default_sub) := kd in
  match value !! sub_key with
  | Some v => if eq_empty_str v then <[sub_key := default_sub]> acc else acc
  | None => acc
  end.

(** What one turn of the outer loop stores at [result[key]] when [key] is in
    [data] and [data[key]] is [value]. *)
Definition assigned (default_value value : pyval) : res pyval :=
  match value with
  | VStr s =>
      if String.eqb s "" then Ok default_value else Ok value
  | VDict vd =>
      let! merged := dict_unpack default_value value in
      Ok (VDict (fold_left (sub_step vd) (dict_items default_value) merged))
  | _ => Ok value
  end.

(** One turn of [for key, default_value in defaults.items()]. *)
Definition step (data : pyval) (result : gmap string pyval)
    (kd : string * pyval) : res (gmap string pyval) :=
  let '(key, default_value) := kd in
  let! present := py_in key data in
  if present then
    let! value := getitem data key in
    let! new := assigned default_value value in
    Ok (<[key := new]> result)
  else Ok result.

Definition handle_options (data : pyval) : res (gmap string pyval) :=
  let result := defaults in
  foldM (step data) result Defaults.items.

(** The inputs on which [handle_options] goes through: no mapping is
    supplied under a key whose default is not a mapping. *)
Definition is_dict (v : pyval) : bool :=
  match v with
  | VDict _ => true
  | _ => false
  end.

Definition field_accepts (m : gmap string pyval) (kd : string * pyval) : bool :=
  match m !! kd.1 with
  | Some (VDict _) => is_dict kd.2
  | _ => true
  end.

Definition no_mapping_for_string_field (m : gmap string pyval) : bool :=
  forallb (field_accepts m) Defaults.items.

(** The supplied sub-value at [k] is the empty string. *)
Definition empty_at (vd : gmap string pyval) (k : string) : bool :=
  match vd !! k with
  | Some v => eq_empty_str v
  | None => false
  end.

(** What the outer loop leaves at [result[k]], [prev] being what was there. *)
Definition out_field (d : pyval) (prev ov : option pyval) : option pyval :=
  match ov with
  | Some v =>
      match assigned d v with
      | Ok new => Some new
      | Raise _ => prev
      end
  | None => prev
  end.

(** [x["seat"][k]] for the outcome [x] of [handle_options], when there is
    such an entry. *)
Definition seat_entry (x : res (gmap string pyval)) (k : string) : option pyval :=
  match x with
  | Ok r =>
      match r !! "seat" with
      | Some (VDict rs) => rs !! k
      | _ => None
      end
  | Raise _ => None
  end.

(** ** Outbound operations *)

(** The calls the service makes on its collaborators: the four requests to
    the wallet API client and the signing of a JWT with the service
    account key. *)
Inductive op : Type :=
  | ClassGet (resourceId : string)
  | ClassInsert (body : pyval)
  | ObjectGet (resourceId : string)
  | ObjectInsert (body : pyval)
  | JwtEncode (claims : pyval).

(** What lies outside the repository: the answers of the wallet API
    ([.execute()] returns the response or raises), the service account, the
    signer (loading the key and encoding, which return the token or raise)
    and Python's [str] on a value that is not a string. *)
Record env : Type := {
  eventticketclass_get : string -> res pyval;
  eventticketclass_insert : pyval -> res pyval;
  eventticketobject_get : string -> res pyval;
  eventticketobject_insert : pyval -> res pyval;
  service_account_email : string;
  jwt_encode : pyval -> res string;
  str_of : pyval -> string
}.

(** A computation that may raise and that records the operations it
    performed, in order; the operations performed before an exception are
    kept. *)
Definition M (A : Type) : Type := (res A * list op)%type.

Definition ret {A} (a : A) : M A := (Ok a, []).

Definition throw {A} (e : exn) : M A := (Raise e, []).

Definition lift {A} (x : res A) : M A := (x, []).

Definition call {A} (o : op) (outcome : res A) : M A := (outcome, [o]).

Definition bind {A B} (x : M A) (f : A -> M B) : M B :=
  match x.1 with
  | Ok a => ((f a).1, x.2 ++ (f a).2)
  | Raise e => (Raise e, x.2)
  end.

(** [try: x] with the outcome handed to the [except]/[else] clauses. *)
Definition attempt {A} (x : M A) : M (res A) := (Ok x.1, x.2).

Notation "'let*' x ':=' c1 'in' c2" := (bind c1 (fun x => c2))
  (at level 10, x name, c1 at level 100, c2 at level 200).

Definition outcome {A} (x : M A) : res A := x.1.
Definition trace {A} (x : M A) : list op := x.2.

(** An f-string field [{v}]. *)
Definition fstr (w : env) (v : pyval) : string :=
  match v with
  | VStr s => s
  | _ => str_of w v
  end.

(** [{'defaultValue': {'language': 'en-US', 'value': s}}] *)
Definition localized (s : string) : pyval :=
  dict_of [ ("defaultValue",
             dict_of [ ("language", VStr "en-US"); ("value", VStr s) ]) ].

(** ** [DemoEventTicket] (src/utils/event_ticket.py) *)

Module DemoEventTicket.

(** What [create_class] returns when the class is found. *)
Definition class_exists (issuer_id class_suffix : string) : pyval :=
  dict_of [ ("status", VStr "exists");
            ("message", VStr "The class already exists.");
            ("issuer_id", VStr issuer_id);
            ("class_suffix", VStr class_suffix);
            ("class_id", VStr (issuer_id +:+ "." +:+ class_suffix));
            ("has_error", VBool true) ].

Definition create_class (w : env) (issuer_id class_suffix : string)
    (data : gmap string pyval) : M pyval :=
  let class_id := issuer_id +:+ "." +:+ class_suffix in
  let* found := attempt (call (ClassGet class_id) (eventticketclass_get w class_id)) in
  match found with
  | Raise (HttpError status_code error_details) =>
      if Z.eqb status_code 400 then
        ret (dict_of [ ("status", VStr "invalid_request");
                       ("message", VStr "Invalid resource ID.");
                       ("error", error_details);
                       ("has_error", VBool true) ])
      else if negb (Z.eqb status_code 404) then
        ret (dict_of [ ("status", VStr "error");
                       ("message", VStr "An unexpected error occurred while checking class existence. Please try again later.");
                       ("has_error", VBool true) ])
      else
        let* event_name := lift (getitem (VDict data) "event_name") in
        let* issuer_name := lift (getitem (VDict data) "issuer_name") in
        let new_class :=
          dict_of [ ("eventId", VStr class_id);
                    ("eventName", localized (fstr w event_name));
                    ("id", VStr class_id);
                    ("issuerName", VStr (fstr w issuer_name));
                    ("reviewStatus", VStr "UNDER_REVIEW") ] in
        let* response := call (ClassInsert new_class) (eventticketclass_insert w new_class) in
        ret (dict_of [ ("status", VStr "created");
                       ("message", VStr "Class successfully created.");
                       ("issuer_id", VStr issuer_id);
                       ("class_suffix", VStr class_suffix);
                       ("class_id", VStr class_id);
                       ("response", response);
                       ("has_error", VBool false) ])
  | Raise e => throw e
  | Ok _ => ret (class_exists issuer_id class_suffix)
  end.

(** The [new_object] literal; its fields are read from [data] in the order
    of the literal, and [data["seat"]["seat_no"]] raises when the seat is
    not a mapping. *)
Definition new_object (w : env) (issuer_id class_suffix object_suffix : string)
    (data : gmap string pyval) : res pyval :=
  let! banner := getitem (VDict data) "banner" in
  let! header_text := getitem (VDict data) "header_text" in
  let! body_text := getitem (VDict data) "body_text" in
  let! google_map_url := getitem (VDict data) "google_map_url" in
  let! phone_number := getitem (VDict data) "phone_number" in
  let! main_image := getitem (VDict data) "main_image" in
  let! seat := getitem (VDict data) "seat" in
  let! seat_no := getitem seat "seat_no" in
  let! seat' := getitem (VDict data) "seat" in
  let! row := getitem seat' "row" in
  let! section := getitem (VDict data) "section" in
  let! gate := getitem (VDict data) "gate" in
  let! ticket_holder_name := getitem (VDict data) "ticket_holder_name" in
  let! ticket_number := getitem (VDict data) "ticket_number" in
  Ok (dict_of
    [ ("id", VStr (issuer_id +:+ "." +:+ object_suffix));
      ("classId", VStr (issuer_id +:+ "." +:+ class_suffix));
      ("state", VStr "ACTIVE");
      ("heroImage",
       dict_of [ ("sourceUri", dict_of [ ("uri", banner) ]);
                 ("contentDescription",
                  localized "By selecting Place Order, I agree to all Terms and Conditions") ]);
      ("logoImage", dict_of [ ("sourceUri", dict_of [ ("uri", banner) ]) ]);
      ("textModulesData",
       VList [ dict_of [ ("header", header_text);
                         ("body", body_text);
                         ("id", VStr "TEXT_MODULE_ID") ] ]);
      ("linksModuleData",
       dict_of [ ("uris",
                  VList [ dict_of [ ("uri", google_map_url);
                                    ("description", VStr "Link module URI description");
                                    ("id", VStr "LINK_MODULE_URI_ID") ];
                          dict_of [ ("uri", VStr ("tel:" +:+ fstr w phone_number));
                                    ("description", VStr "Link module tel description");
                                    ("id", VStr "LINK_MODULE_TEL_ID") ] ]) ]);
      ("imageModulesData",
       VList [ dict_of [ ("mainImage",
                          dict_of [ ("sourceUri", dict_of [ ("uri", main_image) ]);
                                    ("contentDescription",
                                     localized "Image module description") ]);
                         ("id", VStr "IMAGE_MODULE_ID") ] ]);
      ("barcode", dict_of [ ("type", VStr "QR_CODE"); ("value", VStr "QR code") ]);
      ("locations",
       VList [ dict_of [ ("latitude", VFloat 37424015499999996 (-15));
                         ("longitude", VFloat (-12209259560000001) (-14)) ] ]);
      ("seatInfo",
       dict_of [ ("seat", localized (fstr w seat_no));
                 ("row", localized (fstr w row));
                 ("section", localized (fstr w section));
                 ("gate", localized (fstr w gate)) ]);
      ("ticketHolderName", VStr (fstr w ticket_holder_name));
      ("ticketNumber", VStr (fstr w ticket_number)) ]).

(** The initial [response_details] of [create_object]. *)
Definition response_details (object_id : string) : gmap string pyval :=
  list_to_map [ ("object_id", VStr object_id);
                ("status", VStr "unknown");
                ("message", VStr "");
                ("has_error", VBool true) ].

(** [response_details] as returned when the object is found. *)
Definition object_exists (object_id : string) : pyval :=
  VDict (<["has_error" := VBool true]>
        (<["message" := VStr ("Object " +:+ object_id +:+ " already exists!")]>
        (<["status" := VStr "exists"]> (response_details object_id)))).

Definition create_object (w : env) (issuer_id class_suffix object_suffix : string)
    (data : gmap string pyval) : M pyval :=
  let object_id := issuer_id +:+ "." +:+ object_suffix in
  let response_details := response_details object_id in
  let* found := attempt (call (ObjectGet object_id) (eventticketobject_get w object_id)) in
  match found with
  | Raise (HttpError status_code error_details) =>
      if Z.eqb status_code 400 then
        ret (dict_of [ ("status", VStr "invalid_request");
                       ("message", VStr "Invalid resource ID.");
                       ("error", error_details);
                       ("has_error", VBool true) ])
      else if negb (Z.eqb status_code 404) then
        ret (VDict (<["has_error" := VBool true]>
                   (<["message" := VStr "An error occurred while checking the object existence."]>
                   (<["status" := VStr "error"]>
                   (<["error" := error_details]> response_details)))))
      else
        let* body := lift (new_object w issuer_id class_suffix object_suffix data) in
        let* inserted := attempt (call (ObjectInsert body) (eventticketobject_insert w body)) in
        match inserted with
        | Ok response =>
            ret (VDict (<["has_error" := VBool false]>
                       (<["response" := response]>
                       (<["message" := VStr "Object created successfully."]>
                       (<["status" := VStr "created"]> response_details)))))
        | Raise (HttpError status_code' _) =>
            if Z.eqb status_code' 404 then
              ret (VDict (<["has_error" := VBool true]>
                         (<["message" := VStr ("Wallet Object Class " +:+ issuer_id +:+ "."
                                               +:+ class_suffix +:+ " not found.")]>
                         (<["status" := VStr "class_not_found"]> response_details))))
            else ret (VDict response_details)
        | Raise e => throw e
        end
  | Raise e => throw e
  | Ok _ => ret (object_exists object_id)
  end.

(** The JWT claims of [create_jwt_existing_objects]. *)
Definition existing_objects_claims (w : env)
    (issuer_id object_suffix class_suffix : string) : pyval :=
  let objects_to_add :=
    dict_of [ ("eventTicketObjects",
               VList [ dict_of [ ("id", VStr (issuer_id +:+ "." +:+ object_suffix));
                                 ("classId", VStr (issuer_id +:+ "." +:+ class_suffix)) ] ]) ] in
  dict_of [ ("iss", VStr (service_account_email w));
            ("aud", VStr "google");
            ("origins", VList [ VStr "www.example.com" ]);
            ("typ", VStr "savetowallet");
            ("payload", objects_to_add) ].

(** What [create_jwt_existing_objects] returns for the signed [token]. *)
Definition save_link (token : string) : pyval :=
  let wallet_link := "https://pay.google.com/gp/v/save/" +:+ token in
  dict_of [ ("status", VStr "success");
            ("message", VStr "JWT successfully generated.");
            ("wallet_link", VStr wallet_link) ].

Definition create_jwt_existing_objects (w : env)
    (issuer_id object_suffix class_suffix : string) : M pyval :=
  let claims := existing_objects_claims w issuer_id object_suffix class_suffix in
  let* token := call (JwtEncode claims) (jwt_encode w claims) in
  ret (save_link token).

End DemoEventTicket.

(** ** The route [/create-ticket/] (src/main.py) *)

(** The query parameters, in the order of the query string, and what
    [request.get_json()] does on the body: it returns the decoded value, or
    raises (undecodable body, unsupported media type). *)
Record request : Type := {
  args : list (string * string);
  get_json : res pyval
}.

(** [request.args.get(name)]: the first value under [name], or [None]. *)
Definition args_get (req : request) (name : string) : option string :=
  snd <$> List.find (fun p => String.eqb p.1 name) (args req).

(** [not x] for the result of [request.args.get]. *)
Definition absent (x : option string) : bool :=
  match x with
  | None => true
  | Some s => String.eqb s ""
  end.

Record response : Type := {
  body : pyval;
  status : Z
}.

Definition missing_params (req : request) : list string :=
  let missing_params := [] in
  let missing_params :=
    if absent (args_get req "issuer_id")
    then missing_params ++ ["issuer_id"] else missing_params in
  let missing_params :=
    if absent (args_get req "class_suffix")
    then missing_params ++ ["class_suffix"] else missing_params in
  let missing_params :=
    if absent (args_get req "object_suffix")
    then missing_params ++ ["object_suffix"] else missing_params in
  missing_params.

Definition missing_response (missing : list string) : response :=
  {| body := dict_of [ ("error", VStr "Missing parameters");
                       ("missing", VList (VStr <$> missing));
                       ("message", VStr "Please provide the required parameters: issuer_id, class_suffix, object_suffix.") ];
     status := 400 |}.

(** Lines 37-46: [data] is the empty dict when the first [handle_options]
    raises, since the assignment did not take place. *)
Definition normalize_payload (req : request) : res (gmap string pyval) :=
  let data : gmap string pyval := ∅ in
  match (let! payload := get_json req in handle_options payload) with
  | Ok data => Ok data
  | Raise _ => handle_options (VDict data)
  end.

Definition error_response : response :=
  {| body := dict_of [ ("error", VStr "An error occurred while creating the class.") ];
     status := 500 |}.

(** Lines 50-69: the three calls on the ticket, then the choice of the
    response; any exception gives the 500 response. *)
Definition issue (w : env) (issuer_id class_suffix object_suffix : string)
    (data : gmap string pyval) : M response :=
  let* done :=
    attempt
      (let* create_class :=
         DemoEventTicket.create_class w issuer_id class_suffix data in
       let* create_object :=
         DemoEventTicket.create_object w issuer_id class_suffix object_suffix data in
       let* create_existing :=
         DemoEventTicket.create_jwt_existing_objects w issuer_id object_suffix class_suffix in
       let* has_error := lift (getitem create_object "has_error") in
       if truthy has_error
       then ret {| body := create_object; status := 200 |}
       else ret {| body := create_existing; status := 200 |}) in
  match done with
  | Ok r => ret r
  | Raise _ => ret error_response
  end.

(** The handler; when nothing is missing each identifier is a non-empty
    string. *)
Definition create_class (w : env) (req : request) : M response :=
  let issuer_id := args_get req "issuer_id" in
  let class_suffix := args_get req "class_suffix" in
  let object_suffix := args_get req "object_suffix" in
  match missing_params req with
  | _ :: _ => ret (missing_response (missing_params req))
  | [] =>
      let* data := lift (normalize_payload req) in
      issue w (default "" issuer_id) (default "" class_suffix)
              (default "" object_suffix) data
  end.

(** ** The other methods of [DemoEventTicket]: update, patch, expire, messages *)

Module Lifecycle.

(** The requests these methods make on the wallet API client. *)
Inductive request_made : Type :=
  | LookupClass (resourceId : string)
  | UpdateClass (resourceId : string) (body : pyval)
  | PatchClass (resourceId : string) (body : pyval)
  | AddMessageClass (resourceId : string) (body : pyval)
  | LookupObject (resourceId : string)
  | UpdateObject (resourceId : string) (body : pyval)
  | PatchObject (resourceId : string) (body : pyval)
  | AddMessageObject (resourceId : string) (body : pyval).

(** The answers of the client: [.execute()] returns the response or
    raises. *)
Record client : Type := {
  class_get : string -> res pyval;
  class_update : string -> pyval -> res pyval;
  class_patch : string -> pyval -> res pyval;
  class_addmessage : string -> pyval -> res pyval;
  object_get : string -> res pyval;
  object_update : string -> pyval -> res pyval;
  object_patch : string -> pyval -> res pyval;
  object_addmessage : string -> pyval -> res pyval
}.

(** What a method does: its result, or the exception that leaves it, and
    the requests it made, in order. *)
Definition run (A : Type) : Type := (res A * list request_made)%type.

(** [v.get(k)]: [None] when the key is absent; only a dict has [get]
    ([AttributeError] otherwise). *)
Definition dict_get (v : pyval) (k : string) : res pyval :=
  match v with
  | VDict d => Ok (default VNone (d !! k))
  | _ => Raise OtherError
  end.

(** [v[k] = x] with [k] a [str]: only a dict supports it. *)
Definition setitem (v : pyval) (k : string) (x : pyval) : res pyval :=
  match v with
  | VDict d => Ok (VDict (<[k := x]> d))
  | _ => Raise TypeError
  end.

(** [v.append(x)]: only a list has [append] ([AttributeError] otherwise). *)
Definition list_append (v x : pyval) : res pyval :=
  match v with
  | VList l => Ok (VList (l ++ [x]))
  | _ => Raise OtherError
  end.

Definition new_link : pyval :=
  dict_of [ ("uri", VStr "https://developers.google.com/wallet");
            ("description", VStr "New link description") ].

(** [holder['linksModuleData']['uris'].append(new_link)], the list being
    changed in place inside [holder]. *)
Definition append_link (holder : pyval) : res pyval :=
  let! links := getitem holder "linksModuleData" in
  let! uris := getitem links "uris" in
  let! uris' := list_append uris new_link in
  let! links' := setitem links "uris" uris' in
  setitem holder "linksModuleData" links'.

(** Lines 453-460 of [update_object]. *)
Definition updated_object (response : pyval) : res pyval :=
  let updated_object := response in
  let! links := dict_get updated_object "linksModuleData" in
  let! updated_object :=
    if negb (truthy links)
    then setitem updated_object "linksModuleData" (dict_of [ ("uris", VList []) ])
    else Ok updated_object in
  append_link updated_object.

(** Lines 500-511 of [patch_object]. *)
Definition patch_body (existing_object : pyval) : res pyval :=
  let patch_body := VDict ∅ in
  let! links := dict_get existing_object "linksModuleData" in
  let! patch_body :=
    if truthy links
    then let! links' := getitem existing_object "linksModuleData" in
         setitem patch_body "linksModuleData" links'
    else setitem patch_body "linksModuleData" (dict_of [ ("uris", VList []) ]) in
  append_link patch_body.

(** Lines 159-166 of [update_class]. *)
Definition updated_class (response : pyval) : res pyval :=
  let updated_class := response in
  let! updated_class :=
    setitem updated_class "homepageUri"
      (dict_of [ ("uri", VStr "https://developers.google.com/wallet");
                 ("description", VStr "Homepage description") ]) in
  setitem updated_class "reviewStatus" (VStr "UNDER_REVIEW").

Definition class_patch_body : pyval :=
  dict_of [ ("homepageUri",
             dict_of [ ("uri", VStr "https://developers.google.com/wallet");
                       ("description", VStr "Homepage description") ]);
            ("reviewStatus", VStr "UNDER_REVIEW") ].

Definition message_body (header body : string) : pyval :=
  dict_of [ ("message",
             dict_of [ ("header", VStr header); ("body", VStr body) ]) ].

(** The shape the seven methods share: look the resource up; on an
    [HttpError] (404 or not) print and return the id; otherwise build the
    body from the response, send it and return the id. *)
Definition lookup_then (resource_id : string)
    (lookup : request_made) (found : res pyval)
    (build : pyval -> res pyval)
    (sent : pyval -> request_made) (send : pyval -> res pyval) : run string :=
  match found with
  | Raise (HttpError _ _) => (Ok resource_id, [lookup])
  | Raise e => (Raise e, [lookup])
  | Ok response =>
      match build response with
      | Raise e => (Raise e, [lookup])
      | Ok body =>
          match send body with
          | Ok _ => (Ok resource_id, [lookup; sent body])
          | Raise e => (Raise e, [lookup; sent body])
          end
      end
  end.

Definition update_class (w : client) (issuer_id class_suffix : string) : run string :=
  let class_id := issuer_id +:+ "." +:+ class_suffix in
  lookup_then class_id (LookupClass class_id) (class_get w class_id)
    updated_class (UpdateClass class_id) (class_update w class_id).

Definition patch_class (w : client) (issuer_id class_suffix : string) : run string :=
  let class_id := issuer_id +:+ "." +:+ class_suffix in
  lookup_then class_id (LookupClass class_id) (class_get w class_id)
    (fun _ => Ok class_patch_body) (PatchClass class_id) (class_patch w class_id).

Definition add_class_message (w : client) (issuer_id class_suffix header body : string)
    : run string :=
  let class_id := issuer_id +:+ "." +:+ class_suffix in
  lookup_then class_id (LookupClass class_id) (class_get w class_id)
    (fun _ => Ok (message_body header body))
    (AddMessageClass class_id) (class_addmessage w class_id).

Definition update_object (w : client) (issuer_id object_suffix : string) : run string :=
  let object_id := issuer_id +:+ "." +:+ object_suffix in
  lookup_then object_id (LookupObject object_id) (object_get w object_id)
    updated_object (UpdateObject object_id) (object_update w object_id).

Definition patch_object (w : client) (issuer_id object_suffix : string) : run string :=
  let object_id := issuer_id +:+ "." +:+ object_suffix in
  lookup_then object_id (LookupObject object_id) (object_get w object_id)
    patch_body (PatchObject object_id) (object_patch w object_id).

Definition expire_object (w : client) (issuer_id object_suffix : string) : run string :=
  let object_id := issuer_id +:+ "." +:+ object_suffix in
  lookup_then object_id (LookupObject object_id) (object_get w object_id)
    (fun _ => Ok (dict_of [ ("state", VStr "EXPIRED") ]))
    (PatchObject object_id) (object_patch w object_id).

Definition add_object_message (w : client) (issuer_id object_suffix header body : string)
    : run string :=
  let object_id := issuer_id +:+ "." +:+ object_suffix in
  lookup_then object_id (LookupObject object_id) (object_get w object_id)
    (fun _ => Ok (message_body header body))
    (AddMessageObject object_id) (object_addmessage w object_id).

(** The request is a write: anything but a lookup. *)
Definition is_write (r : request_made) : bool :=
  match r with
  | LookupClass _ | LookupObject _ => false
  | _ => true
  end.

(** A client that gives fixed answers. *)
Definition sample_client (class_found object_found written : res pyval) : client :=
  {| class_get := fun _ => class_found;
     class_update := fun _ _ => written;
     class_patch := fun _ _ => written;
     class_addmessage := fun _ _ => written;
     object_get := fun _ => object_found;
     object_update := fun _ _ => written;
     object_patch := fun _ _ => written;
     object_addmessage := fun _ _ => written |}.

End Lifecycle.

(** ** Vocabulary of the statements *)

(** [x[k]] for the outcome [x] of [handle_options], when there is one. *)
Definition entry (x : res (gmap string pyval)) (k : string) : option pyval :=
  match x with
  | Ok r => r !! k
  | Raise _ => None
  end.

(** The sub-value supplied for the seat sub-key [k], if any. *)
Definition seat_supplied (m : gmap string pyval) (k : string) : option pyval :=
  match m !! "seat" with
  | Some (VDict vd) => vd !! k
  | _ => None
  end.

(** The three identifiers are given, none of them empty. *)
Definition identifiers_present (req : request)
    (issuer_id class_suffix object_suffix : string) : Prop :=
  args_get req "issuer_id" = Some issuer_id /\ issuer_id <> "" /\
  args_get req "class_suffix" = Some class_suffix /\ class_suffix <> "" /\
  args_get req "object_suffix" = Some object_suffix /\ object_suffix <> "".

(** The body is absent or undecodable ([get_json] raises), decodes to
    something that is not a mapping, or is the empty mapping. *)
Definition no_payload (req : request) : bool :=
  match get_json req with
  | Raise _ => true
  | Ok (VDict m) => bool_decide (m = ∅)
  | Ok _ => true
  end.

Definition is_jwt_encode (o : op) : bool :=
  match o with
  | JwtEncode _ => true
  | _ => false
  end.

(** The save-link operation was attempted. *)
Definition save_link_attempted (t : list op) : bool := existsb is_jwt_encode t.

(** ** Sample collaborators and requests *)

(** A collaborator that gives the same answer to every class lookup, object
    lookup, insertion and signing request. *)
Definition sample_env (class_get class_insert object_get object_insert : res pyval)
    (token : res string) : env :=
  {| eventticketclass_get := fun _ => class_get;
     eventticketclass_insert := fun _ => class_insert;
     eventticketobject_get := fun _ => object_get;
     eventticketobject_insert := fun _ => object_insert;
     service_account_email := "issuer@example.iam.gserviceaccount.com";
     jwt_encode := fun _ => token;
     str_of := fun _ => "" |}.

(** [POST /create-ticket/?issuer_id=I&class_suffix=C&object_suffix=O]. *)
Definition sample_request (payload : res pyval) : request :=
  {| args := [ ("issuer_id", "I"); ("class_suffix", "C"); ("object_suffix", "O") ];
     get_json := payload |}.

(** ** Facts about the loops of [handle_options] *)

Section Loops.

Context (m : gmap string pyval).

Lemma step_dict (result : gmap string pyval) key d :
  step (VDict m) result (key, d) =
  match m !! key with
  | Some v => let! new := assigned d v in Ok (<[key := new]> result)
  | None => Ok result
  end.
Proof.
  unfold step; simpl.
  destruct (m !! key) as [v|] eqn:E; reflexivity.
Qed.

Lemma assigned_returns d v :
  returns (assigned d v) <-> (is_dict v = true -> is_dict d = true).
Proof.
  unfold returns; destruct v; simpl;
    try (split; [done | intros _; eexists; reflexivity]).
  - destruct (String.eqb s ""); (split; [done | intros _; eexists; reflexivity]).
  - destruct d; simpl;
      (split; [ first [ done | intros [a Ha]; discriminate ]
              | intros H; first [ eexists; reflexivity
                                | specialize (H eq_refl); discriminate ] ]).
Qed.

Lemma loop_returns items acc :
  returns (foldM (step (VDict m)) acc items) <->
  forallb (field_accepts m) items = true.
Proof.
  revert acc; induction items as [|[k d] items IH]; intros acc;
    cbn [foldM forallb].
  - split; [done | by exists acc].
  - rewrite step_dict, andb_true_iff. unfold field_accepts at 1; cbn [fst snd].
    destruct (m !! k) as [v|] eqn:E; cbn [res_bind].
    + pose proof (assigned_returns d v) as Hr.
      destruct (assigned d v) as [new|e] eqn:Ea; cbn [res_bind].
      * rewrite IH.
        assert (Hd : is_dict v = true -> is_dict d = true)
          by (apply Hr; by eexists).
        destruct v; simpl in *; tauto.
      * split; [intros [? ?]; discriminate|].
        intros [Hd _]. destruct Hr as [_ Hr].
        destruct Hr as [? ?]; [|discriminate].
        destruct v; simpl in *; done.
    + rewrite IH. tauto.
Qed.

Lemma sub_loop_lookup (dd vd : gmap string pyval) l acc k :
  (forall k' d, (k', d) ∈ l -> dd !! k' = Some d) ->
  fold_left (sub_step vd) l acc !! k =
  if empty_at vd k && bool_decide (k ∈ l.*1) then dd !! k else acc !! k.
Proof.
  revert acc; induction l as [|[k' d'] l IH]; intros acc Hl; cbn [fold_left].
  - rewrite andb_false_r. reflexivity.
  - rewrite IH by (intros; apply Hl; by right).
    assert (Hd' : dd !! k' = Some d') by (apply Hl; by left).
    cbn [fmap list_fmap fst].
    destruct (decide (k = k')) as [->|Hne].
    + rewrite (bool_decide_true (k' ∈ k' :: _)) by (by left).
      unfold sub_step, empty_at.
      destruct (vd !! k') as [v|]; cbn; [|done].
      destruct (eq_empty_str v); cbn; [|done].
      rewrite lookup_insert_eq, Hd'. by destruct (bool_decide _).
    + assert (Hk : bool_decide (k ∈ k' :: l.*1) = bool_decide (k ∈ l.*1)).
      { apply bool_decide_ext. rewrite elem_of_cons. tauto. }
      rewrite Hk.
      assert (Ha : sub_step vd acc (k', d') !! k = acc !! k).
      { unfold sub_step. destruct (vd !! k') as [v|]; [|done].
        destruct (eq_empty_str v); [|done]. by rewrite lookup_insert_ne. }
      by rewrite Ha.
Qed.

Lemma seat_merge_lookup (dd vd : gmap string pyval) k :
  fold_left (sub_step vd) (map_to_list dd) (vd ∪ dd) !! k =
  match vd !! k with
  | Some v =>
      if eq_empty_str v
      then match dd !! k with Some d => Some d | None => Some v end
      else Some v
  | None => dd !! k
  end.
Proof.
  rewrite (sub_loop_lookup dd) by (intros ? ?; apply elem_of_map_to_list).
  unfold empty_at. rewrite lookup_union.
  destruct (vd !! k) as [v|] eqn:Ev; cbn.
  - destruct (eq_empty_str v); cbn.
    + destruct (dd !! k) as [d|] eqn:Ed.
      * rewrite bool_decide_true; [done|].
        apply list_elem_of_fmap. exists (k, d). split; [done|].
        by apply elem_of_map_to_list.
      * rewrite bool_decide_false; [done|].
        intros ((k0 & d0) & -> & Hin)%list_elem_of_fmap.
        apply elem_of_map_to_list in Hin. cbn in *. congruence.
    + by destruct (dd !! k).
  - by destruct (dd !! k).
Qed.

Lemma loop_lookup items acc r k :
  NoDup items.*1 ->
  foldM (step (VDict m)) acc items = Ok r ->
  r !! k =
  match (list_to_map items : gmap string pyval) !! k with
  | Some d => out_field d (acc !! k) (m !! k)
  | None => acc !! k
  end.
Proof.
  revert acc; induction items as [|[k' d'] items IH]; intros acc Hnd;
    cbn [foldM].
  - intros [= ->]. by rewrite list_to_map_nil, lookup_empty.
  - rewrite step_dict. cbn [fmap list_fmap fst] in Hnd.
    apply NoDup_cons in Hnd as [Hk' Hnd].
    intros Hr.
    assert (Hstep : exists acc',
               foldM (step (VDict m)) acc' items = Ok r /\
               forall j, acc' !! j =
                         if decide (k' = j)
                         then out_field d' (acc !! j) (m !! j)
                         else acc !! j).
    { destruct (m !! k') as [v|] eqn:Ev; cbn [res_bind] in Hr.
      - destruct (assigned d' v) as [new|e] eqn:Ea; cbn [res_bind] in Hr;
          [|discriminate].
        exists (<[k' := new]> acc). split; [done|]. intros j.
        rewrite lookup_insert. destruct (decide (k' = j)) as [<-|]; [|done].
        unfold out_field. by rewrite Ev, Ea.
      - exists acc. split; [done|]. intros j.
        destruct (decide (k' = j)) as [<-|]; [|done].
        unfold out_field. by rewrite Ev. }
    destruct Hstep as (acc' & Hfold & Hacc').
    rewrite (IH acc' Hnd Hfold), Hacc', list_to_map_cons, lookup_insert.
    destruct (decide (k' = k)) as [<-|Hne]; [|done].
    assert (Hnone : (list_to_map items : gmap string pyval) !! k' = None)
      by (by apply not_elem_of_list_to_map_1).
    by rewrite Hnone.
Qed.

Lemma foldM_ext {A B} (f g : A -> B -> res A) l acc :
  (forall a b, b ∈ l -> f a b = g a b) ->
  foldM f acc l = foldM g acc l.
Proof.
  revert acc; induction l as [|b l IH]; intros acc H; cbn [foldM]; [done|].
  rewrite H by (by left). destruct (g acc b); cbn [res_bind]; [|done].
  apply IH. intros; apply H. by right.
Qed.

End Loops.

(** ** [handle_options] on a dict *)

Lemma defaults_keys_NoDup : NoDup Defaults.keys.
Proof. by apply (bool_decide_unpack _). Qed.

Lemma defaults_lookup_keys k : k ∈ Defaults.keys <-> is_Some (defaults !! k).
Proof.
  unfold defaults, Defaults.keys. rewrite <- not_eq_None_Some.
  rewrite <- not_elem_of_list_to_map. split; [tauto|].
  intros H. by destruct (decide (k ∈ Defaults.items.*1)).
Qed.

Lemma defaults_seat : defaults !! "seat" = Some (VDict Defaults.seat).
Proof. reflexivity. Qed.

(** Every default but the seat is a non-empty string. *)
Lemma defaults_string k d :
  defaults !! k = Some d ->
  (k = "seat" /\ d = VDict Defaults.seat) \/
  (k <> "seat" /\ exists s, d = VStr s /\ s <> "").
Proof.
  intros H. apply elem_of_list_to_map_2 in H. unfold Defaults.items in H.
  repeat (apply elem_of_cons in H as [[= -> ->]|H];
          [first [ left; split; reflexivity
                 | right; split; [discriminate | eexists; split; [reflexivity | discriminate]] ] |]).
  by apply elem_of_nil in H.
Qed.

Lemma seat_defaults_string k d :
  Defaults.seat !! k = Some d -> d = VStr "0" /\ (k = "row" \/ k = "seat_no").
Proof.
  intros H. apply elem_of_list_to_map_2 in H. unfold Defaults.seat_items in H.
  repeat (apply elem_of_cons in H as [[= -> ->]|H]; [by auto|]).
  by apply elem_of_nil in H.
Qed.

Lemma handle_options_returns m :
  returns (handle_options (VDict m)) <-> no_mapping_for_string_field m = true.
Proof. apply loop_returns. Qed.

Lemma handle_options_lookup m r k :
  handle_options (VDict m) = Ok r ->
  r !! k =
  match defaults !! k with
  | Some d => out_field d (Some d) (m !! k)
  | None => None
  end.
Proof.
  intros H. unfold handle_options in H.
  rewrite (loop_lookup m _ _ _ k defaults_keys_NoDup H).
  fold defaults. by destruct (defaults !! k).
Qed.

(** The accepted inputs, field by field. *)
Lemma no_mapping_for_string_field_spec m :
  no_mapping_for_string_field m = true <->
  forall k d vd, defaults !! k = Some d -> m !! k = Some (VDict vd) ->
                 is_dict d = true.
Proof.
  unfold no_mapping_for_string_field. rewrite forallb_forall. split.
  - intros H k d vd Hd Hm. apply elem_of_list_to_map_2 in Hd.
    apply list_elem_of_In in Hd. specialize (H _ Hd).
    unfold field_accepts in H; cbn in H. by rewrite Hm in H.
  - intros H [k d] Hin. unfold field_accepts; cbn.
    destruct (m !! k) as [[]|] eqn:Em; try done.
    eapply H; [|done]. apply elem_of_list_to_map_1; [apply defaults_keys_NoDup|].
    by apply list_elem_of_In.
Qed.

(** On an accepted input, what [result[k]] holds for a default key [k]. *)
Lemma out_field_accepted m k d :
  no_mapping_for_string_field m = true ->
  defaults !! k = Some d ->
  out_field d (Some d) (m !! k) =
  match m !! k with
  | None => Some d
  | Some (VStr s) => if String.eqb s "" then Some d else Some (VStr s)
  | Some (VDict vd) =>
      Some (VDict (fold_left (sub_step vd) (map_to_list Defaults.seat)
                             (vd ∪ Defaults.seat)))
  | Some v => Some v
  end.
Proof.
  intros Hacc Hd. unfold out_field.
  destruct (m !! k) as [v|] eqn:Em; [|done].
  destruct v; cbn; try done.
  - by destruct (String.eqb s "").
  - pose proof (proj1 (no_mapping_for_string_field_spec m) Hacc k d d0 Hd Em) as Hdict.
    destruct (defaults_string k d Hd) as [[-> ->]|[_ (s & -> & _)]]; [|done].
    reflexivity.
Qed.

Lemma handle_options_accepted m :
  no_mapping_for_string_field m = true ->
  exists r, handle_options (VDict m) = Ok r /\
    forall k d, defaults !! k = Some d ->
      r !! k =
      match m !! k with
      | None => Some d
      | Some (VStr s) => if String.eqb s "" then Some d else Some (VStr s)
      | Some (VDict vd) =>
          Some (VDict (fold_left (sub_step vd) (map_to_list Defaults.seat)
                                 (vd ∪ Defaults.seat)))
      | Some v => Some v
      end.
Proof.
  intros Hacc. destruct (proj2 (handle_options_returns m) Hacc) as [r Hr].
  exists r. split; [done|]. intros k d Hd.
  rewrite (handle_options_lookup m r k Hr), Hd.
  by apply out_field_accepted.
Qed.

Lemma assigned_seat vd :
  assigned (VDict Defaults.seat) (VDict vd) =
  Ok (VDict (fold_left (sub_step vd) (map_to_list Defaults.seat)
                       (vd ∪ Defaults.seat))).
Proof. reflexivity. Qed.

Lemma string_eqb_empty s : s <> "" -> String.eqb s "" = false.
Proof. intros H. by apply String.eqb_neq. Qed.

(** ** The field normaliser: allow-list, defaulting rule, key set, totality *)

(** C3, as the code has it: a top-level key outside the defaults has no
    effect on what [handle_options] does (result or exception); inside a
    supplied seat mapping a sub-key outside the default seat is copied
    into the seat of the result with the value supplied. *)
Theorem handle_options_unknown_key (m : gmap string pyval) :
  (forall k v, defaults !! k = None ->
     handle_options (VDict (<[k := v]> m)) = handle_options (VDict m)) /\
  (forall r vd k v,
     handle_options (VDict m) = Ok r ->
     m !! "seat" = Some (VDict vd) ->
     Defaults.seat !! k = None ->
     vd !! k = Some v ->
     exists rs, r !! "seat" = Some (VDict rs) /\ rs !! k = Some v).
Proof.
  split.
  - intros k v Hk. unfold handle_options. apply foldM_ext.
    intros acc [k' d] Hin. rewrite !step_dict.
    assert (Hne : k <> k').
    { intros ->. apply not_elem_of_list_to_map in Hk. apply Hk.
      apply list_elem_of_fmap. by exists (k', d). }
    by rewrite lookup_insert_ne.
  - intros r vd k v Hr Hseat Hk Hv.
    pose proof (handle_options_lookup m r "seat" Hr) as Hl.
    rewrite defaults_seat, Hseat in Hl. unfold out_field in Hl.
    rewrite assigned_seat in Hl.
    eexists. split; [exact Hl|].
    rewrite seat_merge_lookup, Hv, Hk. by destruct (eq_empty_str v).
Qed.

Lemma handle_options_unknown_key_witness :
  handle_options (VDict (<["colour" := VStr "red"]> {[ "gate" := VStr "7" ]})) =
  handle_options (VDict {[ "gate" := VStr "7" ]}) /\
  exists r rs,
    handle_options (VDict {[ "seat" := VDict {[ "vip" := VStr "yes" ]} ]}) = Ok r /\
    r !! "seat" = Some (VDict rs) /\ rs !! "vip" = Some (VStr "yes").
Proof.
  split.
  - apply (proj1 (handle_options_unknown_key {[ "gate" := VStr "7" ]})).
    reflexivity.
  - destruct (handle_options_accepted
                {[ "seat" := VDict {[ "vip" := VStr "yes" ]} ]})
      as (r & Hr & _); [vm_compute; reflexivity|].
    destruct (proj2 (handle_options_unknown_key
                       {[ "seat" := VDict {[ "vip" := VStr "yes" ]} ]})
                r {[ "vip" := VStr "yes" ]} "vip" (VStr "yes") Hr)
      as (rs & Hrs & Hvip); [reflexivity | reflexivity | reflexivity |].
    exists r, rs. auto.
Defined.

(** C3 as stated fails on the seat: the sub-key [vip], which the default
    seat does not have, is found in the seat of the output with the value
    supplied, so it changes the output. *)
Lemma seat_sub_key_copied :
  seat_entry
    (handle_options (VDict {[ "seat" := VDict {[ "vip" := VStr "yes" ]} ]}))
    "vip" = Some (VStr "yes") /\
  seat_entry (handle_options (VDict {[ "seat" := VDict ∅ ]})) "vip" = None /\
  handle_options (VDict {[ "seat" := VDict {[ "vip" := VStr "yes" ]} ]}) <>
  handle_options (VDict {[ "seat" := VDict ∅ ]}).
Proof.
  split; [vm_compute; reflexivity|]. split; [vm_compute; reflexivity|].
  intros Heq. apply (f_equal (fun x => seat_entry x "vip")) in Heq.
  vm_compute in Heq. discriminate.
Qed.

(** C4, on the inputs [handle_options] accepts (no mapping under a key whose
    default is a string): it returns a record in which a default field
    supplied as the empty string holds its default and one supplied as a
    non-empty string holds that string; the same holds, sub-field by
    sub-field, inside a supplied seat mapping. *)
Theorem handle_options_string_rule (m : gmap string pyval) :
  no_mapping_for_string_field m = true ->
  exists r, handle_options (VDict m) = Ok r /\
    (forall k d, defaults !! k = Some d ->
       m !! k = Some (VStr "") -> r !! k = Some d) /\
    (forall k s, is_Some (defaults !! k) -> s <> "" ->
       m !! k = Some (VStr s) -> r !! k = Some (VStr s)) /\
    (forall vd, m !! "seat" = Some (VDict vd) ->
       exists rs, r !! "seat" = Some (VDict rs) /\
         forall k d, Defaults.seat !! k = Some d ->
           (vd !! k = Some (VStr "") -> rs !! k = Some d) /\
           (forall s, s <> "" -> vd !! k = Some (VStr s) ->
              rs !! k = Some (VStr s))).
Proof.
  intros Hacc. destruct (handle_options_accepted m Hacc) as (r & Hr & Hl).
  exists r. split; [done|]. repeat split.
  - intros k d Hd Hm. by rewrite (Hl k d Hd), Hm.
  - intros k s [d Hd] Hs Hm.
    by rewrite (Hl k d Hd), Hm, (string_eqb_empty s Hs).
  - intros vd Hm. eexists.
    split; [by rewrite (Hl _ _ defaults_seat), Hm|].
    intros k d Hd. rewrite seat_merge_lookup. split.
    + intros Hv. rewrite Hv. change (eq_empty_str (VStr "")) with true.
      cbv iota. by rewrite Hd.
    + intros s Hs Hv. rewrite Hv. unfold eq_empty_str.
      by rewrite (string_eqb_empty s Hs).
Qed.

Lemma handle_options_string_rule_witness :
  exists r rs,
    handle_options
      (VDict {[ "event_name" := VStr "Launch"; "gate" := VStr "";
                "seat" := VDict {[ "row" := VStr ""; "seat_no" := VStr "12" ]} ]})
    = Ok r /\
    r !! "event_name" = Some (VStr "Launch") /\
    r !! "gate" = Some (VStr "0") /\
    r !! "seat" = Some (VDict rs) /\
    rs !! "row" = Some (VStr "0") /\
    rs !! "seat_no" = Some (VStr "12").
Proof.
  destruct (handle_options_string_rule
              {[ "event_name" := VStr "Launch"; "gate" := VStr "";
                 "seat" := VDict {[ "row" := VStr ""; "seat_no" := VStr "12" ]} ]})
    as (r & Hr & Hempty & Hstr & Hseat); [vm_compute; reflexivity|].
  destruct (Hseat {[ "row" := VStr ""; "seat_no" := VStr "12" ]})
    as (rs & Hrs & Hsub); [reflexivity|].
  exists r, rs. split; [exact Hr|]. split.
  { apply Hstr; [by eexists | discriminate | reflexivity]. }
  split. { apply Hempty; reflexivity. }
  split; [exact Hrs|]. split.
  - apply (proj1 (Hsub "row" (VStr "0") eq_refl)). reflexivity.
  - apply (proj2 (Hsub "seat_no" (VStr "0") eq_refl)); [discriminate | reflexivity].
Defined.

(** C4 as stated fails where [handle_options] raises: the empty string is
    supplied for [event_name], a mapping for [banner], and no record is
    returned that holds the default event name. *)
Lemma empty_string_next_to_mapping :
  ~ exists r,
      handle_options (VDict {[ "event_name" := VStr ""; "banner" := VDict ∅ ]})
      = Ok r /\
      r !! "event_name" = defaults !! "event_name".
Proof. intros (r & Hr & _). vm_compute in Hr. discriminate. Qed.

(** C5, on the inputs [handle_options] accepts: it returns a record that
    has every key of the defaults. *)
Theorem handle_options_every_default_key (m : gmap string pyval) :
  no_mapping_for_string_field m = true ->
  exists r, handle_options (VDict m) = Ok r /\
    forall k, k ∈ Defaults.keys -> is_Some (r !! k).
Proof.
  intros Hacc. destruct (handle_options_accepted m Hacc) as (r & Hr & Hl).
  exists r. split; [done|]. intros k [d Hd]%defaults_lookup_keys.
  rewrite (Hl k d Hd). destruct (m !! k) as [[]|]; try by eexists.
  destruct (String.eqb s ""); by eexists.
Qed.

Lemma handle_options_every_default_key_witness :
  exists r, handle_options (VDict {[ "section" := VInt 4 ]}) = Ok r /\
    forall k, k ∈ Defaults.keys -> is_Some (r !! k).
Proof.
  apply (handle_options_every_default_key {[ "section" := VInt 4 ]}).
  reflexivity.
Defined.

(** C5 as stated fails where [handle_options] raises: with a mapping under
    [ticket_number] no record is returned. *)
Lemma no_record_for_mapping_under_string_key :
  ~ exists r,
      handle_options (VDict {[ "ticket_number" := VDict {[ "n" := VInt 1 ]} ]})
      = Ok r /\
      forall k, k ∈ Defaults.keys -> is_Some (r !! k).
Proof. intros (r & Hr & _). vm_compute in Hr. discriminate. Qed.

(** C6, as the code has it: [handle_options] returns on every mapping that
    holds no mapping under a key whose default is a string, whatever the
    other values are; and it never raises for a missing key: removing a key
    from such an input leaves an input on which it returns. *)
Theorem handle_options_total_on_accepted (m : gmap string pyval) :
  no_mapping_for_string_field m = true ->
  returns (handle_options (VDict m)) /\
  forall k, returns (handle_options (VDict (delete k m))).
Proof.
  intros Hacc. split; [by apply handle_options_returns|].
  intros k. apply handle_options_returns.
  apply no_mapping_for_string_field_spec. intros k' d vd Hd Hm.
  apply lookup_delete_Some in Hm as [_ Hm].
  by apply (proj1 (no_mapping_for_string_field_spec m) Hacc k' d vd).
Qed.

Lemma handle_options_total_on_accepted_witness :
  returns (handle_options
             (VDict {[ "event_name" := VList [VInt 1; VNone];
                       "seat" := VBool true; "gate" := VFloat 15 (-1) ]})) /\
  forall k,
    returns (handle_options
               (VDict (delete k {[ "event_name" := VList [VInt 1; VNone];
                                   "seat" := VBool true;
                                   "gate" := VFloat 15 (-1) ]}))).
Proof.
  assert (H : no_mapping_for_string_field
                {[ "event_name" := VList [VInt 1; VNone];
                   "seat" := VBool true; "gate" := VFloat 15 (-1) ]} = true)
    by (vm_compute; reflexivity).
  exact (handle_options_total_on_accepted _ H).
Defined.

(** C6 as stated fails: a mapping supplied for [event_name], whose default
    is a string, makes [handle_options] raise [TypeError]. *)
Lemma handle_options_raises_on_mapping :
  handle_options (VDict {[ "event_name" := VDict ∅ ]}) = Raise TypeError /\
  ~ returns (handle_options (VDict {[ "event_name" := VDict ∅ ]})).
Proof.
  split; [vm_compute; reflexivity|].
  intros [r Hr]. vm_compute in Hr. discriminate.
Qed.

(** C9, as the code has it: on an accepted input every default attribute
    is present in the record and none is the empty string; an attribute
    that is absent or supplied as the empty string holds its default; a
    value supplied for a default attribute that is neither the empty string
    nor a mapping (a non-empty string, [None], a number, a boolean, a list)
    is kept as supplied, for the seat too; when the seat is absent, the
    empty string or a mapping, the seat of the record is a mapping whose
    [row] and [seat_no] are present, are not the empty string, and hold
    their default when absent or supplied empty; and inside a supplied seat
    mapping every sub-value other than the empty string is kept as
    supplied. *)
Theorem handle_options_no_empty_string (m : gmap string pyval) :
  no_mapping_for_string_field m = true ->
  exists r, handle_options (VDict m) = Ok r /\
    (forall k, k ∈ Defaults.keys -> exists v, r !! k = Some v /\ v <> VStr "") /\
    (forall k d, defaults !! k = Some d ->
       m !! k = None \/ m !! k = Some (VStr "") -> r !! k = Some d) /\
    (forall k v, k ∈ Defaults.keys -> m !! k = Some v ->
       v <> VStr "" -> (forall vd, v <> VDict vd) -> r !! k = Some v) /\
    (m !! "seat" = None \/ m !! "seat" = Some (VStr "") \/
     (exists vd, m !! "seat" = Some (VDict vd)) ->
     exists rs, r !! "seat" = Some (VDict rs) /\
       forall k d, Defaults.seat !! k = Some d ->
         (exists v, rs !! k = Some v /\ v <> VStr "") /\
         (seat_supplied m k = None \/ seat_supplied m k = Some (VStr "") ->
          rs !! k = Some d)) /\
    (forall vd, m !! "seat" = Some (VDict vd) ->
     exists rs, r !! "seat" = Some (VDict rs) /\
       forall j v, vd !! j = Some v -> v <> VStr "" -> rs !! j = Some v).
Proof.
  intros Hacc. destruct (handle_options_accepted m Hacc) as (r & Hr & Hl).
  exists r. split; [done|].
  split; [|split; [|split; [|split]]].
  - intros k [d Hd]%defaults_lookup_keys. rewrite (Hl k d Hd).
    assert (Hne : d <> VStr "").
    { destruct (defaults_string k d Hd) as [[_ ->]|[_ (s & -> & Hs)]];
        congruence. }
    destruct (m !! k) as [[]|]; try (eexists; split; [reflexivity | done]).
    destruct (String.eqb s "") eqn:Es; (eexists; split; [reflexivity|]);
      [done|].
    intros [= ->]. discriminate.
  - intros k d Hd [Hm|Hm]; by rewrite (Hl k d Hd), Hm.
  - intros k v [d Hd]%defaults_lookup_keys Hm Hne Hnd.
    rewrite (Hl k d Hd), Hm. destruct v; try reflexivity.
    + destruct (String.eqb s "") eqn:Es; [|reflexivity].
      apply String.eqb_eq in Es as ->. by destruct Hne.
    + by destruct (Hnd d0).
  - intros Hseat. pose proof (Hl _ _ defaults_seat) as Hs.
    unfold seat_supplied.
    destruct Hseat as [Hm|[Hm|[vd Hm]]]; rewrite Hm in Hs |- *.
    + exists Defaults.seat. split; [done|]. intros k d Hd.
      split; [|done]. exists d. split; [done|].
      by destruct (seat_defaults_string k d Hd) as [-> _].
    + exists Defaults.seat. split; [done|]. intros k d Hd.
      split; [|done]. exists d. split; [done|].
      by destruct (seat_defaults_string k d Hd) as [-> _].
    + eexists. split; [exact Hs|]. intros k d Hd.
      rewrite seat_merge_lookup, Hd.
      destruct (seat_defaults_string k d Hd) as [-> _].
      destruct (vd !! k) as [v|] eqn:Ev.
      * destruct (eq_empty_str v) eqn:Ee.
        -- split; [by eexists|done].
        -- split.
           ++ exists v. split; [done|]. intros ->. discriminate.
           ++ intros [?|[= ->]]; discriminate.
      * split; [by eexists|done].
  - intros vd Hm. pose proof (Hl _ _ defaults_seat) as Hs. rewrite Hm in Hs.
    eexists. split; [exact Hs|]. intros j v Hv Hne.
    rewrite seat_merge_lookup, Hv.
    destruct (eq_empty_str v) eqn:Ee; [|reflexivity].
    destruct v; try discriminate.
    apply String.eqb_eq in Ee as ->. by destruct Hne.
Qed.

Lemma handle_options_no_empty_string_witness :
  exists r rs,
    handle_options
      (VDict {[ "gate" := VStr ""; "section" := VInt 4;
                "seat" := VDict {[ "row" := VStr ""; "seat_no" := VInt 12 ]} ]})
    = Ok r /\
    (exists v, r !! "banner" = Some v /\ v <> VStr "") /\
    r !! "gate" = Some (VStr "0") /\
    r !! "section" = Some (VInt 4) /\
    r !! "seat" = Some (VDict rs) /\
    rs !! "row" = Some (VStr "0") /\
    rs !! "seat_no" = Some (VInt 12).
Proof.
  assert (H : no_mapping_for_string_field
                {[ "gate" := VStr ""; "section" := VInt 4;
                   "seat" := VDict {[ "row" := VStr ""; "seat_no" := VInt 12 ]} ]}
              = true) by (vm_compute; reflexivity).
  destruct (handle_options_no_empty_string _ H)
    as (r & Hr & Hall & Hdef & Hkept & Hseat & Hsubkept).
  destruct Hseat as (rs & Hrs & Hsub).
  { right; right. by eexists. }
  destruct (Hsubkept {[ "row" := VStr ""; "seat_no" := VInt 12 ]} eq_refl)
    as (rs' & Hrs' & Hkeptsub).
  assert (Heq : rs' = rs) by congruence. subst rs'.
  exists r, rs. split; [exact Hr|]. split.
  { apply Hall. apply defaults_lookup_keys. by eexists. }
  split.
  { apply Hdef; [reflexivity | by right]. }
  split.
  { apply Hkept; [apply defaults_lookup_keys; by eexists | reflexivity
                 | discriminate | discriminate]. }
  split; [exact Hrs|]. split.
  - apply (proj2 (Hsub "row" (VStr "0") eq_refl)). by right.
  - apply Hkeptsub; [reflexivity | discriminate].
Defined.

(** C9 as stated fails: a seat supplied as a non-empty string is kept as
    it is, so the seat of the record is not a mapping and has no [row];
    and a field supplied as [null] is [None] in the record. *)
Lemma seat_kept_verbatim :
  entry (handle_options (VDict {[ "seat" := VStr "A1" ]})) "seat"
  = Some (VStr "A1") /\
  seat_entry (handle_options (VDict {[ "seat" := VStr "A1" ]})) "row" = None /\
  entry (handle_options (VDict {[ "event_name" := VNone ]})) "event_name"
  = Some VNone.
Proof. repeat split; vm_compute; reflexivity. Qed.

(** ** The handler: normalising the payload *)

Lemma handle_options_empty : handle_options (VDict ∅) = Ok defaults.
Proof.
  destruct (handle_options_accepted ∅) as (r & Hr & Hl); [reflexivity|].
  rewrite Hr. f_equal. apply map_eq. intros k.
  pose proof (handle_options_lookup ∅ r k Hr) as H. rewrite H.
  rewrite lookup_empty. by destruct (defaults !! k).
Qed.

(** On a value that is not a dict the loop either raises or leaves the
    defaults as they are. *)
Lemma step_non_dict data acc kd :
  is_dict data = false ->
  step data acc kd = Ok acc \/ exists e, step data acc kd = Raise e.
Proof.
  intros Hd. destruct kd as [key d]. unfold step.
  destruct data; try discriminate; cbn [py_in res_bind]; eauto.
  - destruct (str_contains key s); cbn [getitem res_bind]; eauto.
  - destruct (existsb _ l); cbn [getitem res_bind]; eauto.
Qed.

Lemma handle_options_non_dict data :
  is_dict data = false ->
  handle_options data = Ok defaults \/ exists e, handle_options data = Raise e.
Proof.
  intros Hd. unfold handle_options. generalize Defaults.items as items.
  generalize defaults as acc.
  intros acc items; revert acc; induction items as [|kd items IH]; intros acc;
    cbn [foldM]; [by left|].
  destruct (step_non_dict data acc kd Hd) as [->|[e ->]]; cbn [res_bind];
    [apply IH | eauto].
Qed.

Lemma normalize_payload_returns req : returns (normalize_payload req).
Proof.
  unfold normalize_payload.
  destruct (res_bind (get_json req) _) as [data|e]; [by eexists|].
  rewrite handle_options_empty. by eexists.
Qed.

Lemma normalize_payload_raise req e :
  (let! payload := get_json req in handle_options payload) = Raise e ->
  normalize_payload req = Ok defaults.
Proof.
  intros H. unfold normalize_payload. rewrite H. apply handle_options_empty.
Qed.

Lemma normalize_payload_no_payload req :
  no_payload req = true -> normalize_payload req = Ok defaults.
Proof.
  unfold no_payload. intros H.
  destruct (get_json req) as [payload|e] eqn:Ej.
  - destruct (is_dict payload) eqn:Ed.
    + destruct payload; try discriminate.
      apply bool_decide_eq_true in H as ->.
      unfold normalize_payload. rewrite Ej. cbn [res_bind].
      by rewrite handle_options_empty.
    + destruct (handle_options_non_dict payload Ed) as [Hh|[e Hh]].
      * unfold normalize_payload. rewrite Ej. cbn [res_bind]. by rewrite Hh.
      * apply (normalize_payload_raise req e). by rewrite Ej.
  - by apply (normalize_payload_raise req e); rewrite Ej.
Qed.

(** ** Outcome and trace of composed computations *)

Lemma outcome_bind {A B} (x : M A) (f : A -> M B) :
  outcome (bind x f) =
  match outcome x with
  | Ok a => outcome (f a)
  | Raise e => Raise e
  end.
Proof. unfold outcome, bind. by destruct x.1. Qed.

Lemma trace_bind {A B} (x : M A) (f : A -> M B) :
  trace (bind x f) =
  trace x ++ match outcome x with
             | Ok a => trace (f a)
             | Raise _ => []
             end.
Proof.
  unfold outcome, trace, bind. destruct x.1; [done|].
  cbn. by rewrite app_nil_r.
Qed.

Lemma outcome_attempt {A} (x : M A) : outcome (attempt x) = Ok (outcome x).
Proof. reflexivity. Qed.

Lemma trace_attempt {A} (x : M A) : trace (attempt x) = trace x.
Proof. reflexivity. Qed.

Lemma outcome_call {A} o (x : res A) : outcome (call o x) = x.
Proof. reflexivity. Qed.

Lemma trace_call {A} o (x : res A) : trace (call o x) = [o].
Proof. reflexivity. Qed.

Lemma outcome_ret {A} (a : A) : outcome (ret a) = Ok a.
Proof. reflexivity. Qed.

Lemma trace_ret {A} (a : A) : trace (ret a) = [].
Proof. reflexivity. Qed.

Lemma outcome_lift {A} (x : res A) : outcome (lift x) = x.
Proof. reflexivity. Qed.

Lemma trace_lift {A} (x : res A) : trace (lift x) = [].
Proof. reflexivity. Qed.

Lemma outcome_throw {A} e : outcome (@throw A e) = Raise e.
Proof. reflexivity. Qed.

Lemma trace_throw {A} e : trace (@throw A e) = [].
Proof. reflexivity. Qed.

Lemma bind_lift_ok {A B} (a : A) (f : A -> M B) : bind (lift (Ok a)) f = f a.
Proof. unfold bind, lift. cbn. by destruct (f a). Qed.

Create Rewrite HintDb run.
#[export] Hint Rewrite @outcome_bind @trace_bind @outcome_attempt @trace_attempt
  @outcome_call @trace_call @outcome_ret @trace_ret @outcome_lift @trace_lift
  @outcome_throw @trace_throw : run.

(** ** The handler: identifiers *)

Lemma absent_false (x : option string) s : x = Some s -> s <> "" -> absent x = false.
Proof. intros -> Hs. by apply String.eqb_neq. Qed.

Lemma identifiers_present_missing req i c o :
  identifiers_present req i c o -> missing_params req = [].
Proof.
  intros (Hi & Hi' & Hc & Hc' & Ho & Ho'). unfold missing_params.
  by rewrite (absent_false _ i Hi Hi'), (absent_false _ c Hc Hc'),
    (absent_false _ o Ho Ho').
Qed.

Lemma create_class_present w req i c o data :
  identifiers_present req i c o ->
  normalize_payload req = Ok data ->
  create_class w req = issue w i c o data.
Proof.
  intros Hid Hn. unfold create_class.
  rewrite (identifiers_present_missing req i c o Hid), Hn, bind_lift_ok.
  destruct Hid as (-> & _ & -> & _ & -> & _). reflexivity.
Qed.

Lemma issue_trace_head w i c o data :
  exists rest, trace (issue w i c o data) = ClassGet (i +:+ "." +:+ c) :: rest.
Proof.
  unfold issue, DemoEventTicket.create_class.
  rewrite !trace_bind, trace_attempt, !trace_bind, trace_attempt, trace_call.
  cbn [app]. by eexists.
Qed.

(** ** The handler: claims *)

(** C7: when an identifier is missing or empty the handler answers 400
    with the fixed error and message and the list of the missing
    identifiers, performs no outbound operation, and the list names exactly
    the identifiers that are missing or empty; when only [object_suffix] is
    missing the list is [["object_suffix"]]. *)
Theorem create_class_missing_identifier (w : env) (req : request) :
  absent (args_get req "issuer_id") = true \/
  absent (args_get req "class_suffix") = true \/
  absent (args_get req "object_suffix") = true ->
  outcome (create_class w req) =
    Ok {| body := dict_of
            [ ("error", VStr "Missing parameters");
              ("missing", VList (VStr <$> missing_params req));
              ("message", VStr "Please provide the required parameters: issuer_id, class_suffix, object_suffix.") ];
          status := 400 |} /\
  trace (create_class w req) = [] /\
  (forall name,
     name ∈ missing_params req <->
     name ∈ ["issuer_id"; "class_suffix"; "object_suffix"] /\
     absent (args_get req name) = true) /\
  (absent (args_get req "issuer_id") = false ->
   absent (args_get req "class_suffix") = false ->
   missing_params req = ["object_suffix"]).
Proof.
  intros Hmiss.
  assert (Hne : exists x l, missing_params req = x :: l).
  { unfold missing_params.
    destruct (absent (args_get req "issuer_id")),
             (absent (args_get req "class_suffix")),
             (absent (args_get req "object_suffix")); cbn; eauto.
    destruct Hmiss as [?|[?|?]]; discriminate. }
  destruct Hne as (x & l & Hne).
  split; [|split; [|split]].
  - unfold create_class. rewrite Hne. by rewrite <- Hne.
  - unfold create_class. by rewrite Hne.
  - intros name. unfold missing_params. rewrite !elem_of_cons, elem_of_nil.
    destruct (absent (args_get req "issuer_id")) eqn:E1,
             (absent (args_get req "class_suffix")) eqn:E2,
             (absent (args_get req "object_suffix")) eqn:E3;
      cbn [app]; rewrite ?elem_of_cons, ?elem_of_nil;
      (split; [ intros H; repeat destruct H as [H|H]; subst; auto
              | intros [H Ha]; repeat destruct H as [H|H]; subst;
                auto; congruence ]);
      try contradiction.
  - intros E1 E2. unfold missing_params. rewrite E1, E2.
    destruct (absent (args_get req "object_suffix")) eqn:E3; [done|].
    destruct Hmiss as [?|[?|?]]; congruence.
Qed.

Lemma create_class_missing_identifier_witness :
  outcome (create_class
             {| eventticketclass_get := fun _ => Raise OtherError;
                eventticketclass_insert := fun _ => Raise OtherError;
                eventticketobject_get := fun _ => Raise OtherError;
                eventticketobject_insert := fun _ => Raise OtherError;
                service_account_email := "svc@example.com";
                jwt_encode := fun _ => Raise OtherError;
                str_of := fun _ => "" |}
             {| args := [ ("issuer_id", "I"); ("class_suffix", "C") ];
                get_json := Raise OtherError |})
  = Ok {| body := dict_of
            [ ("error", VStr "Missing parameters");
              ("missing", VList [ VStr "object_suffix" ]);
              ("message", VStr "Please provide the required parameters: issuer_id, class_suffix, object_suffix.") ];
          status := 400 |}.
Proof.
  apply (proj1 (create_class_missing_identifier _
                  {| args := [ ("issuer_id", "I"); ("class_suffix", "C") ];
                     get_json := Raise OtherError |}
                  (or_intror (or_intror eq_refl)))).
Defined.

Lemma sample_request_identifiers payload :
  identifiers_present (sample_request payload) "I" "C" "O".
Proof. repeat split; discriminate. Qed.

Lemma issue_returns w i c o data : returns (outcome (issue w i c o data)).
Proof.
  unfold issue. rewrite outcome_bind, outcome_attempt. cbv beta iota.
  destruct (outcome (bind _ _)); by eexists.
Qed.

(** C8: with the three identifiers present and a body that is absent,
    undecodable, not a mapping or empty, the record is the defaults, the
    handler goes on to issue with it (its first operation is the lookup of
    the class) and gives a response. *)
Theorem create_class_without_payload (w : env) (req : request)
    (issuer_id class_suffix object_suffix : string) :
  identifiers_present req issuer_id class_suffix object_suffix ->
  no_payload req = true ->
  normalize_payload req = Ok defaults /\
  create_class w req = issue w issuer_id class_suffix object_suffix defaults /\
  returns (outcome (create_class w req)) /\
  exists rest,
    trace (create_class w req) =
    ClassGet (issuer_id +:+ "." +:+ class_suffix) :: rest.
Proof.
  intros Hid Hno.
  pose proof (normalize_payload_no_payload req Hno) as Hn.
  pose proof (create_class_present w req _ _ _ _ Hid Hn) as Hc.
  rewrite Hc. repeat split; [done | apply issue_returns | apply issue_trace_head].
Qed.

Lemma create_class_without_payload_witness :
  normalize_payload (sample_request (Ok (VList [VStr "event_name"]))) = Ok defaults.
Proof.
  apply (create_class_without_payload
           (sample_env (Ok VNone) (Ok VNone) (Ok VNone) (Ok VNone) (Ok "t"))
           (sample_request (Ok (VList [VStr "event_name"]))) "I" "C" "O").
  - apply sample_request_identifiers.
  - reflexivity.
Defined.

Lemma raises_not_returns {A} (x : res A) : raises x <-> ~ returns x.
Proof.
  unfold raises, returns. destruct x as [a|e]; split.
  - intros [? ?]; discriminate.
  - intros H. exfalso. apply H. by eexists.
  - intros _ [? ?]; discriminate.
  - intros _. by eexists.
Qed.

Lemma mapping_for_string_field_raises m k s vd :
  defaults !! k = Some (VStr s) -> m !! k = Some (VDict vd) ->
  raises (handle_options (VDict m)).
Proof.
  intros Hd Hm. apply raises_not_returns. intros Hr.
  apply handle_options_returns in Hr.
  pose proof (proj1 (no_mapping_for_string_field_spec m) Hr k _ vd Hd Hm).
  discriminate.
Qed.

(** C10: a mapping supplied for a field whose default is a string makes
    [handle_options] raise; and whenever [handle_options] raises on the
    decoded body, the handler normalises the empty mapping instead, so the
    record is the defaults, whatever else the body supplied, and the
    request is issued with it. *)
Theorem payload_discarded_when_normalisation_raises (w : env) (req : request)
    (issuer_id class_suffix object_suffix : string) (payload : pyval) :
  (forall m k s vd,
     payload = VDict m -> defaults !! k = Some (VStr s) ->
     m !! k = Some (VDict vd) -> raises (handle_options payload)) /\
  (identifiers_present req issuer_id class_suffix object_suffix ->
   get_json req = Ok payload ->
   raises (handle_options payload) ->
   normalize_payload req = Ok defaults /\
   create_class w req = issue w issuer_id class_suffix object_suffix defaults /\
   forall k, entry (normalize_payload req) k = defaults !! k).
Proof.
  split.
  - intros m k s vd -> Hd Hm. by apply (mapping_for_string_field_raises m k s vd).
  - intros Hid Hj [e He].
    assert (Hn : normalize_payload req = Ok defaults).
    { apply (normalize_payload_raise req e). by rewrite Hj. }
    split; [done|]. split; [by apply create_class_present|].
    intros k. by rewrite Hn.
Qed.

Lemma payload_discarded_when_normalisation_raises_witness :
  entry (normalize_payload
           (sample_request
              (Ok (VDict {[ "event_name" := VStr "Launch";
                            "banner" := VDict ∅ ]}))))
        "event_name"
  = Some (VStr "Event Name").
Proof.
  pose (payload := VDict {[ "event_name" := VStr "Launch"; "banner" := VDict ∅ ]}).
  pose (w := sample_env (Ok VNone) (Ok VNone) (Ok VNone) (Ok VNone) (Ok "t")).
  destruct (payload_discarded_when_normalisation_raises
              w (sample_request (Ok payload)) "I" "C" "O" payload)
    as [Hraise Hdisc].
  assert (Hr : raises (handle_options payload)).
  { apply (Hraise _ "banner"
                  "https://farm4.staticflickr.com/3723/11177041115_6e6a3b6f49_o.jpg"
                  ∅ eq_refl); reflexivity. }
  destruct (Hdisc (sample_request_identifiers _) eq_refl Hr) as (_ & _ & Hk).
  exact (Hk "event_name").
Defined.

(** ** The handler: the three calls and the choice of the response *)

Lemma getitem_insert_eq (d : gmap string pyval) k v :
  getitem (VDict (<[k := v]> d)) k = Ok v.
Proof. unfold getitem. by rewrite lookup_insert_eq. Qed.

(** Every dict [create_object] returns carries a boolean [has_error]. *)
Lemma create_object_has_error w i c o data co :
  outcome (DemoEventTicket.create_object w i c o data) = Ok co ->
  exists flag, getitem co "has_error" = Ok (VBool flag).
Proof.
  unfold DemoEventTicket.create_object.
  rewrite outcome_bind, outcome_attempt, outcome_call. cbv beta iota.
  destruct (eventticketobject_get w _) as [found|[| |sc ed|]].
  - rewrite outcome_ret. intros [= <-]. eexists. apply getitem_insert_eq.
  - rewrite outcome_throw. discriminate.
  - rewrite outcome_throw. discriminate.
  - destruct (Z.eqb sc 400).
    { rewrite outcome_ret. intros [= <-]. by exists true. }
    destruct (negb (Z.eqb sc 404)).
    { rewrite outcome_ret. intros [= <-]. eexists. apply getitem_insert_eq. }
    rewrite outcome_bind, outcome_lift.
    destruct (DemoEventTicket.new_object w i c o data) as [body|e];
      [|discriminate].
    cbv beta iota. rewrite outcome_bind, outcome_attempt, outcome_call.
    cbv beta iota.
    destruct (eventticketobject_insert w body) as [resp|[| |sc' ed'|]].
    + rewrite outcome_ret. intros [= <-]. eexists. apply getitem_insert_eq.
    + rewrite outcome_throw. discriminate.
    + rewrite outcome_throw. discriminate.
    + destruct (Z.eqb sc' 404); rewrite outcome_ret; intros [= <-].
      * eexists. apply getitem_insert_eq.
      * by exists true.
    + rewrite outcome_throw. discriminate.
  - rewrite outcome_throw. discriminate.
Qed.

Lemma issue_outcome w i c o data cc co ce :
  outcome (DemoEventTicket.create_class w i c data) = Ok cc ->
  outcome (DemoEventTicket.create_object w i c o data) = Ok co ->
  outcome (DemoEventTicket.create_jwt_existing_objects w i o c) = Ok ce ->
  outcome (issue w i c o data) =
  Ok match getitem co "has_error" with
     | Ok has_error =>
         if truthy has_error
         then {| body := co; status := 200 |}
         else {| body := ce; status := 200 |}
     | Raise _ => error_response
     end.
Proof.
  intros Hc Ho He. unfold issue.
  rewrite outcome_bind, outcome_attempt. cbv beta iota.
  rewrite outcome_bind, Hc. cbv beta iota.
  rewrite outcome_bind, Ho. cbv beta iota.
  rewrite outcome_bind, He. cbv beta iota.
  rewrite outcome_bind, outcome_lift.
  destruct (getitem co "has_error") as [he|e]; cbv beta iota;
    [|by rewrite outcome_ret].
  destruct (truthy he); by rewrite !outcome_ret.
Qed.

Lemma issue_trace w i c o data cc co :
  outcome (DemoEventTicket.create_class w i c data) = Ok cc ->
  outcome (DemoEventTicket.create_object w i c o data) = Ok co ->
  trace (issue w i c o data) =
  trace (DemoEventTicket.create_class w i c data) ++
  trace (DemoEventTicket.create_object w i c o data) ++
  [JwtEncode (DemoEventTicket.existing_objects_claims w i o c)].
Proof.
  intros Hc Ho. unfold issue.
  rewrite trace_bind, trace_attempt, outcome_attempt. cbv beta iota.
  rewrite trace_bind, Hc. cbv beta iota.
  rewrite trace_bind, Ho. cbv beta iota.
  rewrite trace_bind.
  unfold DemoEventTicket.create_jwt_existing_objects at 1.
  rewrite trace_bind, trace_call.
  rewrite <- !app_assoc. f_equal. f_equal.
  repeat match goal with
         | |- context [match ?x with Ok _ => _ | Raise _ => _ end] =>
             destruct x; cbv beta iota; autorewrite with run; cbn [app]
         | |- context [if ?b then _ else _] => destruct b; autorewrite with run
         end; reflexivity.
Qed.

Lemma issue_raises w i c o data :
  raises (outcome (DemoEventTicket.create_class w i c data)) \/
  raises (outcome (DemoEventTicket.create_object w i c o data)) \/
  raises (outcome (DemoEventTicket.create_jwt_existing_objects w i o c)) ->
  outcome (issue w i c o data) = Ok error_response.
Proof.
  intros H. unfold issue.
  rewrite outcome_bind, outcome_attempt. cbv beta iota.
  rewrite outcome_bind.
  destruct (outcome (DemoEventTicket.create_class w i c data)) as [cc|e1];
    [|by rewrite outcome_ret].
  cbv beta iota. rewrite outcome_bind.
  destruct (outcome (DemoEventTicket.create_object w i c o data)) as [co|e2];
    [|by rewrite outcome_ret].
  cbv beta iota. rewrite outcome_bind.
  destruct (outcome (DemoEventTicket.create_jwt_existing_objects w i o c))
    as [ce|e3]; [|by rewrite outcome_ret].
  destruct H as [[e H]|[[e H]|[e H]]]; congruence.
Qed.

Lemma create_object_trace_head w i c o data :
  exists rest,
    trace (DemoEventTicket.create_object w i c o data)
    = ObjectGet (i +:+ "." +:+ o) :: rest.
Proof.
  unfold DemoEventTicket.create_object.
  rewrite trace_bind, trace_attempt, trace_call. cbn [app]. by eexists.
Qed.

Lemma issue_trace_object_lookup w i c o data cc :
  outcome (DemoEventTicket.create_class w i c data) = Ok cc ->
  exists rest,
    trace (issue w i c o data) =
    trace (DemoEventTicket.create_class w i c data) ++
    ObjectGet (i +:+ "." +:+ o) :: rest.
Proof.
  intros Hc. unfold issue.
  rewrite trace_bind, trace_attempt, outcome_attempt. cbv beta iota.
  rewrite trace_bind, Hc. cbv beta iota. rewrite trace_bind.
  destruct (create_object_trace_head w i c o data) as [rest' ->].
  rewrite <- !app_assoc. cbn [app]. by eexists.
Qed.

(** C2, as the code has it: with the three identifiers present, the
    class-creation result is never read: whenever class creation returns,
    whatever [has_error] its result carries, the object lookup follows the
    operations of class creation. When the three calls on the ticket all
    return, the response is 200 with the object-creation result if its
    [has_error] is true and with the save-link result otherwise, the
    class-creation result [cc] playing no part; when one of the three calls
    raises, the response is the 500 one. *)
Theorem response_chosen_by_object_flag (w : env) (req : request)
    (issuer_id class_suffix object_suffix : string) :
  identifiers_present req issuer_id class_suffix object_suffix ->
  exists data, normalize_payload req = Ok data /\
    (forall cc,
       outcome (DemoEventTicket.create_class w issuer_id class_suffix data)
       = Ok cc ->
       exists rest,
         trace (create_class w req) =
         trace (DemoEventTicket.create_class w issuer_id class_suffix data) ++
         ObjectGet (issuer_id +:+ "." +:+ object_suffix) :: rest) /\
    (forall cc co ce,
       outcome (DemoEventTicket.create_class w issuer_id class_suffix data)
       = Ok cc ->
       outcome (DemoEventTicket.create_object w issuer_id class_suffix
                  object_suffix data) = Ok co ->
       outcome (DemoEventTicket.create_jwt_existing_objects w issuer_id
                  object_suffix class_suffix) = Ok ce ->
       exists flag,
         getitem co "has_error" = Ok (VBool flag) /\
         outcome (create_class w req) =
           Ok {| body := if flag then co else ce; status := 200 |}) /\
    (raises (outcome (DemoEventTicket.create_class w issuer_id class_suffix
                        data)) \/
     raises (outcome (DemoEventTicket.create_object w issuer_id class_suffix
                        object_suffix data)) \/
     raises (outcome (DemoEventTicket.create_jwt_existing_objects w issuer_id
                        object_suffix class_suffix)) ->
     outcome (create_class w req) = Ok error_response).
Proof.
  intros Hid. destruct (normalize_payload_returns req) as [data Hn].
  exists data. split; [done|].
  rewrite (create_class_present w req _ _ _ data Hid Hn).
  split; [|split].
  - intros cc Hc. by apply (issue_trace_object_lookup _ _ _ _ _ cc).
  - intros cc co ce Hc Ho He.
    destruct (create_object_has_error _ _ _ _ _ _ Ho) as [flag Hflag].
    rewrite (issue_outcome _ _ _ _ _ cc co ce Hc Ho He), Hflag.
    exists flag. split; [done|]. by destruct flag.
  - apply issue_raises.
Qed.

Lemma response_chosen_by_object_flag_witness :
  outcome (create_class
             (sample_env (Raise (HttpError 400 VNone)) (Ok VNone) (Ok VNone)
                         (Ok VNone) (Ok "t"))
             (sample_request (Ok (VDict {[ "gate" := VStr "7" ]}))))
  = Ok {| body := DemoEventTicket.object_exists "I.O"; status := 200 |} /\
  (exists rest,
     trace (create_class
              (sample_env (Raise (HttpError 400 VNone)) (Ok VNone) (Ok VNone)
                          (Ok VNone) (Ok "t"))
              (sample_request (Ok (VDict {[ "gate" := VStr "7" ]}))))
     = ClassGet "I.C" :: ObjectGet "I.O" :: rest) /\
  outcome (create_class
             (sample_env (Ok VNone) (Ok VNone) (Ok VNone) (Ok VNone)
                         (Raise OtherError))
             (sample_request (Ok (VDict {[ "gate" := VStr "7" ]}))))
  = Ok error_response.
Proof.
  pose (w := sample_env (Raise (HttpError 400 VNone)) (Ok VNone) (Ok VNone)
                        (Ok VNone) (Ok "t")).
  destruct (response_chosen_by_object_flag w
              (sample_request (Ok (VDict {[ "gate" := VStr "7" ]})))
              "I" "C" "O" (sample_request_identifiers _))
    as (data & _ & Hnext & Hchoice & _).
  split; [|split].
  - destruct (Hchoice
                (dict_of [ ("status", VStr "invalid_request");
                           ("message", VStr "Invalid resource ID.");
                           ("error", VNone);
                           ("has_error", VBool true) ])
                (DemoEventTicket.object_exists "I.O")
                (DemoEventTicket.save_link "t")
                eq_refl eq_refl eq_refl)
      as (flag & Hflag & Hout).
    unfold DemoEventTicket.object_exists in Hflag.
    rewrite getitem_insert_eq in Hflag. injection Hflag as <-.
    exact Hout.
  - destruct (Hnext
                (dict_of [ ("status", VStr "invalid_request");
                           ("message", VStr "Invalid resource ID.");
                           ("error", VNone);
                           ("has_error", VBool true) ])
                eq_refl) as [rest Hrest].
    exists rest. exact Hrest.
  - pose (w' := sample_env (Ok VNone) (Ok VNone) (Ok VNone) (Ok VNone)
                           (Raise OtherError)).
    destruct (response_chosen_by_object_flag w'
                (sample_request (Ok (VDict {[ "gate" := VStr "7" ]})))
                "I" "C" "O" (sample_request_identifiers _))
      as (data' & _ & _ & _ & Hraise).
    apply Hraise. right; right. by exists OtherError.
Defined.

(** C2 as stated fails where a call raises. The object is found, so its
    result has [has_error] true, but signing raises: the response is the
    500 one, not the object-creation result. And with the same object and
    signing behaviour the response follows the outcome of class creation:
    the object-creation result when the class is found, the 500 response,
    with no object lookup at all, when the class insertion raises. *)
Lemma response_depends_on_raising_calls :
  outcome (DemoEventTicket.create_object
             (sample_env (Ok VNone) (Ok VNone) (Ok VNone) (Ok VNone)
                         (Raise OtherError))
             "I" "C" "O" defaults)
  = Ok (DemoEventTicket.object_exists "I.O") /\
  getitem (DemoEventTicket.object_exists "I.O") "has_error" = Ok (VBool true) /\
  outcome (create_class
             (sample_env (Ok VNone) (Ok VNone) (Ok VNone) (Ok VNone)
                         (Raise OtherError))
             (sample_request (Raise OtherError)))
  = Ok error_response /\
  status error_response = 500 /\
  outcome (create_class
             (sample_env (Ok VNone) (Ok VNone) (Ok VNone) (Ok VNone) (Ok "t"))
             (sample_request (Raise OtherError)))
  = Ok {| body := DemoEventTicket.object_exists "I.O"; status := 200 |} /\
  outcome (create_class
             (sample_env (Raise (HttpError 404 VNone))
                         (Raise (HttpError 409 VNone)) (Ok VNone) (Ok VNone)
                         (Ok "t"))
             (sample_request (Raise OtherError)))
  = Ok error_response /\
  trace (create_class
           (sample_env (Raise (HttpError 404 VNone))
                       (Raise (HttpError 409 VNone)) (Ok VNone) (Ok VNone)
                       (Ok "t"))
           (sample_request (Raise OtherError)))
  = trace (DemoEventTicket.create_class
             (sample_env (Raise (HttpError 404 VNone))
                         (Raise (HttpError 409 VNone)) (Ok VNone) (Ok VNone)
                         (Ok "t"))
             "I" "C" defaults).
Proof. repeat split; vm_compute; reflexivity. Qed.

Lemma create_object_found w i c o data found :
  eventticketobject_get w (i +:+ "." +:+ o) = Ok found ->
  outcome (DemoEventTicket.create_object w i c o data)
  = Ok (DemoEventTicket.object_exists (i +:+ "." +:+ o)) /\
  trace (DemoEventTicket.create_object w i c o data)
  = [ObjectGet (i +:+ "." +:+ o)].
Proof.
  intros Hget. unfold DemoEventTicket.create_object.
  rewrite outcome_bind, trace_bind, outcome_attempt, trace_attempt,
    outcome_call, trace_call, Hget.
  by autorewrite with run.
Qed.

Lemma create_jwt_existing_objects_outcome w i o c :
  outcome (DemoEventTicket.create_jwt_existing_objects w i o c) =
  match jwt_encode w (DemoEventTicket.existing_objects_claims w i o c) with
  | Ok token => Ok (DemoEventTicket.save_link token)
  | Raise e => Raise e
  end.
Proof.
  unfold DemoEventTicket.create_jwt_existing_objects.
  rewrite outcome_bind, outcome_call. by destruct (jwt_encode w _).
Qed.

Lemma issue_outcome_jwt_raises w i c o data cc co e :
  outcome (DemoEventTicket.create_class w i c data) = Ok cc ->
  outcome (DemoEventTicket.create_object w i c o data) = Ok co ->
  outcome (DemoEventTicket.create_jwt_existing_objects w i o c) = Raise e ->
  outcome (issue w i c o data) = Ok error_response.
Proof.
  intros Hc Ho He. unfold issue.
  rewrite outcome_bind, outcome_attempt. cbv beta iota.
  rewrite outcome_bind, Hc. cbv beta iota.
  rewrite outcome_bind, Ho. cbv beta iota.
  rewrite outcome_bind, He. cbv beta iota.
  by rewrite outcome_ret.
Qed.

(** C1, as the code has it: when the object is found, object creation
    reports [exists] with [has_error] true; if class creation returns, the
    save-link operation is performed right after the object lookup, before
    the flag is read; the response is 200 with the object-creation result
    when signing returns, and the 500 response when signing raises. *)
Theorem existing_object_response (w : env) (req : request)
    (issuer_id class_suffix object_suffix : string) (found : pyval) :
  identifiers_present req issuer_id class_suffix object_suffix ->
  eventticketobject_get w (issuer_id +:+ "." +:+ object_suffix) = Ok found ->
  let envelope :=
    DemoEventTicket.object_exists (issuer_id +:+ "." +:+ object_suffix) in
  let claims :=
    DemoEventTicket.existing_objects_claims w issuer_id object_suffix
      class_suffix in
  getitem envelope "status" = Ok (VStr "exists") /\
  getitem envelope "has_error" = Ok (VBool true) /\
  exists data, normalize_payload req = Ok data /\
    outcome (DemoEventTicket.create_object w issuer_id class_suffix
               object_suffix data) = Ok envelope /\
    forall cc,
      outcome (DemoEventTicket.create_class w issuer_id class_suffix data)
      = Ok cc ->
      trace (create_class w req) =
        trace (DemoEventTicket.create_class w issuer_id class_suffix data) ++
        [ObjectGet (issuer_id +:+ "." +:+ object_suffix); JwtEncode claims] /\
      save_link_attempted (trace (create_class w req)) = true /\
      (forall token, jwt_encode w claims = Ok token ->
         outcome (create_class w req) = Ok {| body := envelope; status := 200 |}) /\
      (forall e, jwt_encode w claims = Raise e ->
         outcome (create_class w req) = Ok error_response).
Proof.
  intros Hid Hget envelope claims.
  assert (Hflag : getitem envelope "has_error" = Ok (VBool true))
    by apply getitem_insert_eq.
  split; [reflexivity|]. split; [exact Hflag|].
  destruct (normalize_payload_returns req) as [data Hn].
  exists data. split; [done|].
  destruct (create_object_found w issuer_id class_suffix object_suffix data
              found Hget) as [Ho Hto].
  split; [exact Ho|]. intros cc Hc.
  rewrite (create_class_present w req _ _ _ data Hid Hn).
  assert (Htrace : trace (issue w issuer_id class_suffix object_suffix data) =
            trace (DemoEventTicket.create_class w issuer_id class_suffix data) ++
            [ObjectGet (issuer_id +:+ "." +:+ object_suffix); JwtEncode claims]).
  { by rewrite (issue_trace _ _ _ _ _ cc _ Hc Ho), Hto. }
  split; [exact Htrace|]. split.
  { rewrite Htrace. unfold save_link_attempted.
    rewrite existsb_app. cbn. apply orb_true_r. }
  split.
  - intros token Ht.
    rewrite (issue_outcome _ _ _ _ _ cc envelope (DemoEventTicket.save_link token)
               Hc Ho).
    + by rewrite Hflag.
    + rewrite create_jwt_existing_objects_outcome. fold claims. by rewrite Ht.
  - intros e Ht.
    apply (issue_outcome_jwt_raises _ _ _ _ _ cc envelope e Hc Ho).
    rewrite create_jwt_existing_objects_outcome. fold claims. by rewrite Ht.
Qed.

Lemma existing_object_response_witness :
  outcome (create_class
             (sample_env (Ok VNone) (Ok VNone) (Ok VNone) (Ok VNone) (Ok "t"))
             (sample_request (Ok (VDict {[ "gate" := VStr "7" ]}))))
  = Ok {| body := DemoEventTicket.object_exists "I.O"; status := 200 |} /\
  outcome (create_class
             (sample_env (Ok VNone) (Ok VNone) (Ok VNone) (Ok VNone)
                         (Raise OtherError))
             (sample_request (Ok (VDict {[ "gate" := VStr "7" ]}))))
  = Ok error_response.
Proof.
  split.
  - pose (w := sample_env (Ok VNone) (Ok VNone) (Ok VNone) (Ok VNone) (Ok "t")).
    destruct (existing_object_response w
                (sample_request (Ok (VDict {[ "gate" := VStr "7" ]})))
                "I" "C" "O" VNone (sample_request_identifiers _) eq_refl)
      as (_ & _ & data & _ & _ & Hresp).
    destruct (Hresp (DemoEventTicket.class_exists "I" "C") eq_refl)
      as (_ & _ & Hok & _).
    exact (Hok "t" eq_refl).
  - pose (w := sample_env (Ok VNone) (Ok VNone) (Ok VNone) (Ok VNone)
                          (Raise OtherError)).
    destruct (existing_object_response w
                (sample_request (Ok (VDict {[ "gate" := VStr "7" ]})))
                "I" "C" "O" VNone (sample_request_identifiers _) eq_refl)
      as (_ & _ & data & _ & _ & Hresp).
    destruct (Hresp (DemoEventTicket.class_exists "I" "C") eq_refl)
      as (_ & _ & _ & Hraise).
    exact (Hraise OtherError eq_refl).
Defined.

(** C1 as stated fails: the object is found, the response is the
    object-creation result, and yet the JWT was signed: the save-link
    operation is the third operation of the request. *)
Lemma save_link_attempted_for_existing_object :
  outcome (create_class
             (sample_env (Ok VNone) (Ok VNone) (Ok VNone) (Ok VNone) (Ok "t"))
             (sample_request (Raise OtherError)))
  = Ok {| body := DemoEventTicket.object_exists "I.O"; status := 200 |} /\
  getitem (DemoEventTicket.object_exists "I.O") "status" = Ok (VStr "exists") /\
  getitem (DemoEventTicket.object_exists "I.O") "has_error" = Ok (VBool true) /\
  trace (create_class
           (sample_env (Ok VNone) (Ok VNone) (Ok VNone) (Ok VNone) (Ok "t"))
           (sample_request (Raise OtherError)))
  = [ ClassGet "I.C"; ObjectGet "I.O";
      JwtEncode (DemoEventTicket.existing_objects_claims
                   (sample_env (Ok VNone) (Ok VNone) (Ok VNone) (Ok VNone) (Ok "t"))
                   "I" "O" "C") ] /\
  save_link_attempted
    (trace (create_class
              (sample_env (Ok VNone) (Ok VNone) (Ok VNone) (Ok VNone) (Ok "t"))
              (sample_request (Raise OtherError)))) <> false.
Proof.
  split; [vm_compute; reflexivity|]. split; [vm_compute; reflexivity|].
  split; [vm_compute; reflexivity|]. split; [vm_compute; reflexivity|].
  vm_compute. discriminate.
Qed.

(** ** More on [handle_options] *)

Lemma handle_options_result m r :
  handle_options (VDict m) = Ok r ->
  no_mapping_for_string_field m = true /\
  (forall k, defaults !! k = None -> r !! k = None) /\
  (forall k d, defaults !! k = Some d ->
     r !! k =
     match m !! k with
     | None => Some d
     | Some (VStr s) => if String.eqb s "" then Some d else Some (VStr s)
     | Some (VDict vd) =>
         Some (VDict (fold_left (sub_step vd) (map_to_list Defaults.seat)
                                (vd ∪ Defaults.seat)))
     | Some v => Some v
     end).
Proof.
  intros Hr.
  assert (Hacc : no_mapping_for_string_field m = true)
    by (apply handle_options_returns; by eexists).
  split; [done|]. split.
  - intros k Hk. by rewrite (handle_options_lookup m r k Hr), Hk.
  - intros k d Hd. rewrite (handle_options_lookup m r k Hr), Hd.
    by apply out_field_accepted.
Qed.

Lemma seat_merge_dom (vd : gmap string pyval) :
  dom (fold_left (sub_step vd) (map_to_list Defaults.seat) (vd ∪ Defaults.seat))
  = dom vd ∪ dom Defaults.seat.
Proof.
  apply set_eq. intros j. rewrite elem_of_union, !elem_of_dom.
  rewrite seat_merge_lookup. unfold is_Some.
  destruct (vd !! j) as [v|], (Defaults.seat !! j) as [d|];
    try destruct (eq_empty_str v);
    (split; [ intros [x Hx]; try discriminate; eauto
            | intros [[x Hx]|[x Hx]]; try discriminate; eauto ]).
Qed.

(** X1: the record [handle_options] returns has exactly the keys of the
    defaults, and when a seat mapping is supplied the seat of the record has
    exactly the supplied sub-keys together with [row] and [seat_no]. *)
Theorem handle_options_key_sets (m r : gmap string pyval) :
  handle_options (VDict m) = Ok r ->
  dom r = dom defaults /\
  forall vd, m !! "seat" = Some (VDict vd) ->
    exists rs, r !! "seat" = Some (VDict rs) /\
      dom rs = dom vd ∪ {[ "row"; "seat_no" ]}.
Proof.
  intros Hr. destruct (handle_options_result m r Hr) as (Hacc & Hnone & Hsome).
  split.
  - apply set_eq. intros k. rewrite !elem_of_dom.
    destruct (defaults !! k) as [d|] eqn:Hd.
    + rewrite (Hsome k d Hd). split; [by eexists|]. intros _.
      destruct (m !! k) as [[]|];
        first [ by eexists | destruct (String.eqb _ ""); by eexists ].
    + by rewrite (Hnone k Hd).
  - intros vd Hm. eexists. split.
    + by rewrite (Hsome _ _ defaults_seat), Hm.
    + rewrite seat_merge_dom. by f_equal.
Qed.

Lemma handle_options_key_sets_witness :
  exists r rs,
    handle_options (VDict {[ "seat" := VDict {[ "vip" := VStr "" ]} ]}) = Ok r /\
    dom r = dom defaults /\
    r !! "seat" = Some (VDict rs) /\
    dom rs = {[ "vip" ]} ∪ {[ "row"; "seat_no" ]}.
Proof.
  destruct (handle_options_accepted {[ "seat" := VDict {[ "vip" := VStr "" ]} ]})
    as (r & Hr & _); [vm_compute; reflexivity|].
  destruct (handle_options_key_sets _ r Hr) as [Hdom Hseat].
  destruct (Hseat {[ "vip" := VStr "" ]} eq_refl) as (rs & Hrs & Hd).
  exists r, rs. rewrite dom_singleton_L in Hd. auto.
Defined.

(** X2: a value supplied for a default field that is neither a string nor
    a mapping ([None], a boolean, a number, a list) is kept as supplied. *)
Theorem handle_options_other_types_verbatim (m r : gmap string pyval) k v :
  handle_options (VDict m) = Ok r ->
  is_Some (defaults !! k) ->
  m !! k = Some v ->
  (forall s, v <> VStr s) ->
  (forall vd, v <> VDict vd) ->
  r !! k = Some v.
Proof.
  intros Hr [d Hd] Hm Hs Hv.
  destruct (handle_options_result m r Hr) as (_ & _ & Hsome).
  rewrite (Hsome k d Hd), Hm. destruct v; try done.
  - by destruct (Hs s).
  - by destruct (Hv d0).
Qed.

Lemma handle_options_other_types_verbatim_witness :
  exists r,
    handle_options (VDict {[ "gate" := VList [VInt 3]; "seat" := VNone ]}) = Ok r /\
    r !! "gate" = Some (VList [VInt 3]) /\ r !! "seat" = Some VNone.
Proof.
  destruct (handle_options_accepted {[ "gate" := VList [VInt 3]; "seat" := VNone ]})
    as (r & Hr & _); [vm_compute; reflexivity|].
  exists r. split; [exact Hr|]. split.
  - apply (handle_options_other_types_verbatim _ r "gate" _ Hr);
      [by eexists | reflexivity | discriminate | discriminate].
  - apply (handle_options_other_types_verbatim _ r "seat" _ Hr);
      [by eexists | reflexivity | discriminate | discriminate].
Defined.

Lemma seat_merge_fixed (vd : gmap string pyval) :
  fold_left
    (sub_step (fold_left (sub_step vd) (map_to_list Defaults.seat)
                         (vd ∪ Defaults.seat)))
    (map_to_list Defaults.seat)
    (fold_left (sub_step vd) (map_to_list Defaults.seat) (vd ∪ Defaults.seat)
     ∪ Defaults.seat)
  = fold_left (sub_step vd) (map_to_list Defaults.seat) (vd ∪ Defaults.seat).
Proof.
  apply map_eq. intros j. rewrite (seat_merge_lookup Defaults.seat _ j).
  rewrite (seat_merge_lookup Defaults.seat vd j).
  destruct (vd !! j) as [v|] eqn:Ev.
  - destruct (eq_empty_str v) eqn:Ee.
    + destruct (Defaults.seat !! j) as [d|] eqn:Ed.
      * destruct (seat_defaults_string j d Ed) as [-> _]. reflexivity.
      * by rewrite Ee.
    + by rewrite Ee.
  - destruct (Defaults.seat !! j) as [d|] eqn:Ed; [|reflexivity].
    destruct (seat_defaults_string j d Ed) as [-> _]. reflexivity.
Qed.

Lemma seat_merge_defaults :
  fold_left (sub_step Defaults.seat) (map_to_list Defaults.seat)
    (Defaults.seat ∪ Defaults.seat) = Defaults.seat.
Proof.
  apply map_eq. intros j. rewrite seat_merge_lookup.
  destruct (Defaults.seat !! j) as [d|] eqn:Ed; [|done].
  destruct (seat_defaults_string j d Ed) as [-> _]. reflexivity.
Qed.

(** X3: normalising twice is normalising once: on the record it returned,
    [handle_options] returns that same record. *)
Theorem handle_options_idempotent (m r : gmap string pyval) :
  handle_options (VDict m) = Ok r ->
  handle_options (VDict r) = Ok r.
Proof.
  intros Hr. destruct (handle_options_result m r Hr) as (Hacc & Hnone & Hsome).
  assert (Haccr : no_mapping_for_string_field r = true).
  { apply no_mapping_for_string_field_spec. intros k d vd Hd Hk.
    rewrite (Hsome k d Hd) in Hk.
    destruct (m !! k) as [v|] eqn:Em;
      [|injection Hk as ->; reflexivity].
    destruct v.
    - congruence.
    - congruence.
    - congruence.
    - congruence.
    - destruct (String.eqb s "");
        [injection Hk as ->; reflexivity | congruence].
    - congruence.
    - clear Hk.
      exact (proj1 (no_mapping_for_string_field_spec m) Hacc k d d0 Hd Em). }
  destruct (handle_options_accepted r Haccr) as (r' & Hr' & Hl').
  rewrite Hr'. f_equal. apply map_eq. intros k.
  destruct (defaults !! k) as [d|] eqn:Hd.
  - rewrite (Hl' k d Hd), (Hsome k d Hd).
    assert (Hdef : match d with
                   | VStr s => if String.eqb s "" then Some d else Some (VStr s)
                   | VDict vd =>
                       Some (VDict (fold_left (sub_step vd)
                                      (map_to_list Defaults.seat)
                                      (vd ∪ Defaults.seat)))
                   | _ => Some d
                   end = Some d).
    { destruct (defaults_string k d Hd) as [[_ ->]|[_ (s & -> & Hs)]].
      - rewrite seat_merge_defaults. reflexivity.
      - rewrite (string_eqb_empty s Hs). reflexivity. }
    destruct (m !! k) as [v|] eqn:Em; [|exact Hdef].
    destruct v.
    + reflexivity.
    + reflexivity.
    + reflexivity.
    + reflexivity.
    + destruct (String.eqb s "") eqn:Es; [exact Hdef|].
      rewrite Es. reflexivity.
    + reflexivity.
    + rewrite seat_merge_fixed. reflexivity.
  - rewrite (Hnone k Hd).
    pose proof (handle_options_lookup r r' k Hr') as H.
    rewrite Hd in H. exact H.
Qed.

Lemma handle_options_idempotent_witness :
  exists r,
    handle_options (VDict {[ "gate" := VStr "";
                             "seat" := VDict {[ "row" := VStr "4" ]} ]}) = Ok r /\
    handle_options (VDict r) = Ok r.
Proof.
  destruct (handle_options_accepted
              {[ "gate" := VStr ""; "seat" := VDict {[ "row" := VStr "4" ]} ]})
    as (r & Hr & _); [vm_compute; reflexivity|].
  exists r. split; [exact Hr|].
  exact (handle_options_idempotent _ r Hr).
Defined.

Lemma assigned_raises d v e : assigned d v = Raise e -> e = TypeError.
Proof.
  destruct v; cbn; try discriminate.
  - destruct (String.eqb s ""); discriminate.
  - destruct d; cbn; try discriminate; by intros [= <-].
Qed.

Lemma loop_raises m items acc e :
  foldM (step (VDict m)) acc items = Raise e -> e = TypeError.
Proof.
  revert acc; induction items as [|[k d] items IH]; intros acc;
    cbn [foldM]; [discriminate|].
  rewrite step_dict. destruct (m !! k) as [v|]; cbn [res_bind]; [|apply IH].
  destruct (assigned d v) as [new|e'] eqn:Ea; cbn [res_bind]; [apply IH|].
  intros [= <-]. by apply (assigned_raises d v).
Qed.

Lemma forallb_false_exists {A} (f : A -> bool) l :
  forallb f l = false -> exists x, x ∈ l /\ f x = false.
Proof.
  induction l as [|a l IH]; cbn; [discriminate|].
  destruct (f a) eqn:Ef; cbn.
  - intros (x & Hx & Hfx)%IH. exists x. split; [by right | done].
  - intros _. exists a. split; [by left | done].
Qed.

(** X4: on a dict, [handle_options] raises exactly when a mapping is
    supplied for a field whose default is a string, and the exception is
    then a [TypeError]; no other exception leaves it. *)
Theorem handle_options_raises_exactly (m : gmap string pyval) :
  (handle_options (VDict m) = Raise TypeError <->
   exists k s vd, defaults !! k = Some (VStr s) /\ m !! k = Some (VDict vd)) /\
  (forall e, handle_options (VDict m) = Raise e -> e = TypeError).
Proof.
  assert (Hty : forall e, handle_options (VDict m) = Raise e -> e = TypeError)
    by (intros e; apply loop_raises).
  split; [|exact Hty]. split.
  - intros Hr.
    destruct (no_mapping_for_string_field m) eqn:Hacc.
    + apply handle_options_returns in Hacc as [r Hok]. congruence.
    + apply forallb_false_exists in Hacc as ([k d] & Hin & Hf).
      unfold field_accepts in Hf; cbn in Hf.
      destruct (m !! k) as [[]|] eqn:Em; try discriminate.
      assert (Hd : defaults !! k = Some d).
      { apply elem_of_list_to_map_1; [apply defaults_keys_NoDup | done]. }
      destruct (defaults_string k d Hd) as [[_ ->]|[_ (s & -> & _)]];
        [discriminate|]. by exists k, s, d0.
  - intros (k & s & vd & Hd & Hm).
    destruct (mapping_for_string_field_raises m k s vd Hd Hm) as [e He].
    by rewrite He, (Hty e He).
Qed.

Lemma handle_options_raises_exactly_witness :
  handle_options (VDict {[ "phone_number" := VDict {[ "cc" := VInt 1 ]} ]})
  = Raise TypeError.
Proof.
  apply (proj2 (proj1 (handle_options_raises_exactly
                         {[ "phone_number" := VDict {[ "cc" := VInt 1 ]} ]}))).
  exists "phone_number", "9876543210", {[ "cc" := VInt 1 ]}.
  split; reflexivity.
Defined.

Lemma loop_list l acc items :
  foldM (step (VList l)) acc items =
  if existsb (fun key =>
                existsb (fun v => match v with
                                  | VStr s => String.eqb key s
                                  | _ => false
                                  end) l) items.*1
  then Raise TypeError else Ok acc.
Proof.
  induction items as [|[k d] items IH]; cbn [foldM fmap list_fmap existsb fst];
    [reflexivity|].
  unfold step at 1. cbn [py_in res_bind].
  destruct (existsb _ l); cbn [orb getitem res_bind]; [reflexivity | exact IH].
Qed.

Lemma loop_str s acc items :
  foldM (step (VStr s)) acc items =
  if existsb (fun key => str_contains key s) items.*1
  then Raise TypeError else Ok acc.
Proof.
  induction items as [|[k d] items IH]; cbn [foldM fmap list_fmap existsb fst];
    [reflexivity|].
  unfold step at 1. cbn [py_in res_bind].
  destruct (str_contains k s); cbn [orb getitem res_bind];
    [reflexivity | exact IH].
Qed.

(** X5: what [handle_options] does on a decoded body that is not a
    mapping. On [None], a boolean or a number it raises [TypeError]. On a
    list it raises [TypeError] if one of the default keys is an element of
    the list and returns the defaults otherwise; on a string it raises
    [TypeError] if one of the default keys occurs in it and returns the
    defaults otherwise. *)
Theorem handle_options_not_a_dict :
  (forall data,
     data = VNone \/ (exists b, data = VBool b) \/ (exists n, data = VInt n) \/
     (exists m e, data = VFloat m e) ->
     handle_options data = Raise TypeError) /\
  (forall l,
     handle_options (VList l) =
     if existsb (fun key =>
                   existsb (fun v => match v with
                                     | VStr s => String.eqb key s
                                     | _ => false
                                     end) l) Defaults.keys
     then Raise TypeError else Ok defaults) /\
  (forall s,
     handle_options (VStr s) =
     if existsb (fun key => str_contains key s) Defaults.keys
     then Raise TypeError else Ok defaults).
Proof.
  split; [|split].
  - intros data [->|[[b ->]|[[n ->]|(m & e & ->)]]]; reflexivity.
  - intros l. apply loop_list.
  - intros s. apply loop_str.
Qed.

Lemma handle_options_not_a_dict_witness :
  handle_options (VInt 7) = Raise TypeError /\
  handle_options (VList [VInt 1; VStr "gate"]) = Raise TypeError /\
  handle_options (VList [VInt 1; VStr "Gate"]) = Ok defaults /\
  handle_options (VStr "my banner") = Raise TypeError.
Proof.
  destruct handle_options_not_a_dict as (Hnum & Hlist & Hstr).
  split; [apply Hnum; right; right; left; by exists 7|].
  split; [exact (Hlist [VInt 1; VStr "gate"])|].
  split; [exact (Hlist [VInt 1; VStr "Gate"])|].
  exact (Hstr "my banner").
Defined.

(** ** More on the ticket methods *)

(** X6: [create_class] looks the class up first and inserts at most once,
    only after the lookup answered 404: it never inserts a class it found,
    nor one whose lookup failed in another way. *)
Theorem create_class_inserts_after_404 (w : env)
    (issuer_id class_suffix : string) (data : gmap string pyval) :
  let class_id := issuer_id +:+ "." +:+ class_suffix in
  trace (DemoEventTicket.create_class w issuer_id class_suffix data)
  = [ClassGet class_id] \/
  exists body error_details,
    trace (DemoEventTicket.create_class w issuer_id class_suffix data)
    = [ClassGet class_id; ClassInsert body] /\
    eventticketclass_get w class_id = Raise (HttpError 404 error_details).
Proof.
  intros class_id. unfold DemoEventTicket.create_class. fold class_id.
  rewrite trace_bind, trace_attempt, trace_call, outcome_attempt, outcome_call.
  cbv beta iota.
  destruct (eventticketclass_get w class_id) as [found|[| |sc ed|]];
    try (left; reflexivity).
  destruct (Z.eqb sc 400) eqn:E400; [left; reflexivity|].
  destruct (Z.eqb sc 404) eqn:E404; cbn [negb]; [|left; reflexivity].
  apply Z.eqb_eq in E404 as ->.
  rewrite trace_bind, trace_lift, outcome_lift.
  destruct (getitem (VDict data) "event_name") as [event_name|];
    [|left; reflexivity].
  cbv beta iota. rewrite trace_bind, trace_lift, outcome_lift.
  destruct (getitem (VDict data) "issuer_name") as [issuer_name|];
    [|left; reflexivity].
  cbv beta iota. rewrite trace_bind, trace_call, outcome_call.
  right. eexists _, ed. split; [|reflexivity].
  destruct (eventticketclass_insert w _); reflexivity.
Qed.

(** X7: whenever [create_class] returns, its result carries a boolean
    [has_error], which is false exactly when the status is [created]; and
    that happens only when the lookup answered 404 and the insertion
    returned. *)
Theorem create_class_has_error (w : env) (issuer_id class_suffix : string)
    (data : gmap string pyval) (cc : pyval) :
  outcome (DemoEventTicket.create_class w issuer_id class_suffix data) = Ok cc ->
  exists flag status,
    getitem cc "has_error" = Ok (VBool flag) /\
    getitem cc "status" = Ok (VStr status) /\
    (flag = false <-> status = "created") /\
    (flag = false ->
     exists error_details body response,
       eventticketclass_get w (issuer_id +:+ "." +:+ class_suffix)
       = Raise (HttpError 404 error_details) /\
       eventticketclass_insert w body = Ok response).
Proof.
  unfold DemoEventTicket.create_class.
  rewrite outcome_bind, outcome_attempt, outcome_call. cbv beta iota.
  destruct (eventticketclass_get w _) as [found|[| |sc ed|]].
  - rewrite outcome_ret. intros [= <-]. exists true, "exists".
    repeat split; discriminate.
  - rewrite outcome_throw. congruence.
  - rewrite outcome_throw. congruence.
  - destruct (Z.eqb sc 400) eqn:E400.
    { rewrite outcome_ret. intros [= <-]. exists true, "invalid_request".
      repeat split; discriminate. }
    destruct (Z.eqb sc 404) eqn:E404; cbn [negb].
    2:{ rewrite outcome_ret. intros [= <-]. exists true, "error".
        repeat split; discriminate. }
    apply Z.eqb_eq in E404 as ->.
    rewrite outcome_bind, outcome_lift.
    destruct (getitem (VDict data) "event_name") as [event_name|];
      [|congruence].
    cbv beta iota. rewrite outcome_bind, outcome_lift.
    destruct (getitem (VDict data) "issuer_name") as [issuer_name|];
      [|congruence].
    cbv beta iota. rewrite outcome_bind, outcome_call.
    destruct (eventticketclass_insert w _) as [response|e] eqn:Hins;
      [|congruence].
    rewrite outcome_ret. intros [= <-]. exists false, "created".
    repeat split. intros _. by eexists ed, _, response.
  - rewrite outcome_throw. congruence.
Qed.

Lemma create_class_has_error_witness :
  exists flag status,
    getitem (DemoEventTicket.class_exists "I" "C") "has_error" = Ok (VBool flag) /\
    getitem (DemoEventTicket.class_exists "I" "C") "status" = Ok (VStr status) /\
    (flag = false <-> status = "created").
Proof.
  destruct (create_class_has_error
              (sample_env (Ok VNone) (Ok VNone) (Ok VNone) (Ok VNone) (Ok "t"))
              "I" "C" defaults (DemoEventTicket.class_exists "I" "C") eq_refl)
    as (flag & status & Hf & Hs & Hiff & _).
  exists flag, status. auto.
Defined.

(** X8: a failed class insertion is not reported in the result: when the
    lookup answers 404 and the record has [event_name] and [issuer_name],
    whatever exception the insertion raises leaves [create_class]. *)
Theorem create_class_insert_error_propagates (w : env)
    (issuer_id class_suffix : string) (data : gmap string pyval)
    (error_details : pyval) (e : exn) :
  eventticketclass_get w (issuer_id +:+ "." +:+ class_suffix)
  = Raise (HttpError 404 error_details) ->
  is_Some (data !! "event_name") ->
  is_Some (data !! "issuer_name") ->
  (forall body, eventticketclass_insert w body = Raise e) ->
  outcome (DemoEventTicket.create_class w issuer_id class_suffix data) = Raise e.
Proof.
  intros Hget [en Hen] [isn His] Hins. unfold DemoEventTicket.create_class.
  rewrite outcome_bind, outcome_attempt, outcome_call, Hget. cbv beta iota.
  change (Z.eqb 404 400) with false. change (negb (Z.eqb 404 404)) with false.
  cbv beta iota. rewrite outcome_bind, outcome_lift.
  unfold getitem at 1. rewrite Hen. cbv beta iota.
  rewrite outcome_bind, outcome_lift. unfold getitem at 1. rewrite His.
  cbv beta iota. by rewrite outcome_bind, outcome_call, Hins.
Qed.

Lemma create_class_insert_error_propagates_witness :
  outcome (DemoEventTicket.create_class
             (sample_env (Raise (HttpError 404 VNone))
                         (Raise (HttpError 409 VNone)) (Ok VNone) (Ok VNone) (Ok "t"))
             "I" "C" defaults)
  = Raise (HttpError 409 VNone).
Proof.
  apply (create_class_insert_error_propagates _ "I" "C" defaults VNone).
  - reflexivity.
  - by eexists.
  - by eexists.
  - reflexivity.
Defined.

(** X9: [create_object] looks the object up first and inserts at most
    once, only after the lookup answered 404 and the [new_object] body was
    built: it never inserts an object it found, nor one whose lookup failed
    in another way. *)
Theorem create_object_inserts_after_404 (w : env)
    (issuer_id class_suffix object_suffix : string) (data : gmap string pyval) :
  let object_id := issuer_id +:+ "." +:+ object_suffix in
  trace (DemoEventTicket.create_object w issuer_id class_suffix object_suffix data)
  = [ObjectGet object_id] \/
  exists body error_details,
    trace (DemoEventTicket.create_object w issuer_id class_suffix
             object_suffix data)
    = [ObjectGet object_id; ObjectInsert body] /\
    eventticketobject_get w object_id = Raise (HttpError 404 error_details) /\
    DemoEventTicket.new_object w issuer_id class_suffix object_suffix data
    = Ok body.
Proof.
  intros object_id. unfold DemoEventTicket.create_object. fold object_id.
  rewrite trace_bind, trace_attempt, trace_call, outcome_attempt, outcome_call.
  cbv beta iota.
  destruct (eventticketobject_get w object_id) as [found|[| |sc ed|]];
    try (left; reflexivity).
  destruct (Z.eqb sc 400) eqn:E400; [left; reflexivity|].
  destruct (Z.eqb sc 404) eqn:E404; cbn [negb]; [|left; reflexivity].
  apply Z.eqb_eq in E404 as ->.
  rewrite trace_bind, trace_lift, outcome_lift.
  destruct (DemoEventTicket.new_object w _ _ _ data) as [body|] eqn:Hbody;
    [|left; reflexivity].
  cbv beta iota.
  rewrite trace_bind, trace_attempt, trace_call, outcome_attempt, outcome_call.
  cbv beta iota.
  right. exists body, ed. split; [|split; reflexivity].
  destruct (eventticketobject_insert w body) as [resp|[| |sc' ed'|]];
    try reflexivity.
  destruct (Z.eqb sc' 404); reflexivity.
Qed.

(** The results of [create_object], by their [has_error] and status. *)
Lemma create_object_result_flag (w : env)
    (issuer_id class_suffix object_suffix : string) (data : gmap string pyval)
    (co : pyval) :
  outcome (DemoEventTicket.create_object w issuer_id class_suffix
             object_suffix data) = Ok co ->
  exists flag status,
    getitem co "has_error" = Ok (VBool flag) /\
    getitem co "status" = Ok (VStr status) /\
    (flag = false <-> status = "created") /\
    (flag = false ->
     exists error_details body response,
       eventticketobject_get w (issuer_id +:+ "." +:+ object_suffix)
       = Raise (HttpError 404 error_details) /\
       DemoEventTicket.new_object w issuer_id class_suffix object_suffix data
       = Ok body /\
       eventticketobject_insert w body = Ok response).
Proof.
  unfold DemoEventTicket.create_object.
  rewrite outcome_bind, outcome_attempt, outcome_call. cbv beta iota.
  destruct (eventticketobject_get w _) as [found|[| |sc ed|]].
  - rewrite outcome_ret. intros [= <-]. exists true, "exists".
    repeat split; discriminate.
  - rewrite outcome_throw. congruence.
  - rewrite outcome_throw. congruence.
  - destruct (Z.eqb sc 400) eqn:E400.
    { rewrite outcome_ret. intros [= <-]. exists true, "invalid_request".
      repeat split; discriminate. }
    destruct (Z.eqb sc 404) eqn:E404; cbn [negb].
    2:{ rewrite outcome_ret. intros [= <-]. exists true, "error".
        repeat split; discriminate. }
    apply Z.eqb_eq in E404 as ->.
    rewrite outcome_bind, outcome_lift.
    destruct (DemoEventTicket.new_object w _ _ _ data) as [body|] eqn:Hbody;
      [|congruence].
    cbv beta iota. rewrite outcome_bind, outcome_attempt, outcome_call.
    cbv beta iota.
    destruct (eventticketobject_insert w body) as [resp|[| |sc' ed'|]] eqn:Hins.
    + rewrite outcome_ret. intros [= <-]. exists false, "created".
      repeat split. intros _. by exists ed, body, resp.
    + rewrite outcome_throw. congruence.
    + rewrite outcome_throw. congruence.
    + destruct (Z.eqb sc' 404); rewrite outcome_ret; intros [= <-].
      * exists true, "class_not_found". repeat split; discriminate.
      * exists true, "unknown". repeat split; discriminate.
    + rewrite outcome_throw. congruence.
  - rewrite outcome_throw. congruence.
Qed.

(** X10: whenever [create_object] returns, its result carries a boolean
    [has_error], which is false exactly when the status is [created]; and
    that happens only when the lookup answered 404, the body was built and
    its insertion returned. *)
Theorem create_object_created (w : env)
    (issuer_id class_suffix object_suffix : string) (data : gmap string pyval)
    (co : pyval) :
  outcome (DemoEventTicket.create_object w issuer_id class_suffix
             object_suffix data) = Ok co ->
  exists flag status,
    getitem co "has_error" = Ok (VBool flag) /\
    getitem co "status" = Ok (VStr status) /\
    (flag = false <-> status = "created") /\
    (flag = false ->
     exists error_details body response,
       eventticketobject_get w (issuer_id +:+ "." +:+ object_suffix)
       = Raise (HttpError 404 error_details) /\
       DemoEventTicket.new_object w issuer_id class_suffix object_suffix data
       = Ok body /\
       eventticketobject_insert w body = Ok response).
Proof. apply create_object_result_flag. Qed.

Lemma create_object_created_witness :
  exists flag status,
    getitem (DemoEventTicket.object_exists "I.O") "has_error" = Ok (VBool flag) /\
    getitem (DemoEventTicket.object_exists "I.O") "status" = Ok (VStr status) /\
    (flag = false <-> status = "created").
Proof.
  destruct (create_object_created
              (sample_env (Ok VNone) (Ok VNone) (Ok VNone) (Ok VNone) (Ok "t"))
              "I" "C" "O" defaults (DemoEventTicket.object_exists "I.O") eq_refl)
    as (flag & status & Hf & Hs & Hiff & _).
  exists flag, status. auto.
Defined.

Lemma record_has_defaults m r k :
  handle_options (VDict m) = Ok r -> is_Some (defaults !! k) -> is_Some (r !! k).
Proof.
  intros Hr [d Hd]. destruct (handle_options_result m r Hr) as (_ & _ & Hsome).
  rewrite (Hsome k d Hd).
  destruct (m !! k) as [v|]; [|by eexists].
  destruct v; try (eexists; reflexivity).
  destruct (String.eqb s ""); eexists; reflexivity.
Qed.

Lemma seat_merge_has_defaults (vd : gmap string pyval) j :
  is_Some (Defaults.seat !! j) ->
  is_Some (fold_left (sub_step vd) (map_to_list Defaults.seat)
             (vd ∪ Defaults.seat) !! j).
Proof.
  intros [d Hd]. rewrite seat_merge_lookup, Hd.
  destruct (vd !! j) as [v|]; [|by eexists].
  destruct (eq_empty_str v); eexists; reflexivity.
Qed.

(** The seat of a normalised record, in terms of the seat supplied. *)
Lemma record_seat m r :
  handle_options (VDict m) = Ok r ->
  (exists rs, r !! "seat" = Some (VDict rs) /\
     is_Some (rs !! "seat_no") /\ is_Some (rs !! "row") /\
     (m !! "seat" = None \/ m !! "seat" = Some (VStr "") \/
      exists vd, m !! "seat" = Some (VDict vd))) \/
  (exists sv, r !! "seat" = Some sv /\ m !! "seat" = Some sv /\
     is_dict sv = false /\ sv <> VStr "").
Proof.
  intros Hr. destruct (handle_options_result m r Hr) as (_ & _ & Hsome).
  pose proof (Hsome _ _ defaults_seat) as Hs.
  assert (Hdef : is_Some (Defaults.seat !! "seat_no") /\
                 is_Some (Defaults.seat !! "row")) by (split; by eexists).
  destruct (m !! "seat") as [v|] eqn:Em.
  2:{ left. exists Defaults.seat. split; [exact Hs|]. tauto. }
  destruct v.
  - right. exists VNone. repeat split; congruence.
  - right. exists (VBool b). repeat split; congruence.
  - right. exists (VInt n). repeat split; congruence.
  - right. exists (VFloat m0 e). repeat split; congruence.
  - destruct (String.eqb s "") eqn:Es.
    + apply String.eqb_eq in Es as ->.
      left. exists Defaults.seat. split; [exact Hs|]. tauto.
    + right. exists (VStr s). repeat split; try congruence.
      intros [= ->]. discriminate.
  - right. exists (VList l). repeat split; congruence.
  - left. eexists. split; [exact Hs|].
    split; [apply seat_merge_has_defaults; tauto|].
    split; [apply seat_merge_has_defaults; tauto|].
    right; right. by eexists.
Qed.

Lemma new_object_of_record w i c o (data rs : gmap string pyval) :
  (forall k, is_Some (defaults !! k) -> is_Some (data !! k)) ->
  data !! "seat" = Some (VDict rs) ->
  is_Some (rs !! "seat_no") -> is_Some (rs !! "row") ->
  returns (DemoEventTicket.new_object w i c o data).
Proof.
  intros Hkeys Hseat [sn Hsn] [row Hrow]. unfold DemoEventTicket.new_object.
  repeat match goal with
         | |- context [getitem (VDict data) "seat"] =>
             unfold getitem at 1; rewrite Hseat; cbn [res_bind]
         | |- context [getitem (VDict rs) "seat_no"] =>
             unfold getitem at 1; rewrite Hsn; cbn [res_bind]
         | |- context [getitem (VDict rs) "row"] =>
             unfold getitem at 1; rewrite Hrow; cbn [res_bind]
         | |- context [getitem (VDict data) ?k] =>
             let H := fresh "H" in
             destruct (Hkeys k) as [? H]; [by eexists|];
             unfold getitem at 1; rewrite H; cbn [res_bind]
         end.
  eexists. reflexivity.
Qed.

Lemma new_object_seat_not_dict w i c o (data : gmap string pyval) sv :
  (forall k, is_Some (defaults !! k) -> is_Some (data !! k)) ->
  data !! "seat" = Some sv -> is_dict sv = false ->
  DemoEventTicket.new_object w i c o data = Raise TypeError.
Proof.
  intros Hkeys Hseat Hsv. unfold DemoEventTicket.new_object.
  repeat match goal with
         | |- context [getitem (VDict data) "seat"] =>
             unfold getitem at 1; rewrite Hseat; cbn [res_bind]
         | |- context [getitem (VDict data) ?k] =>
             let H := fresh "H" in
             destruct (Hkeys k) as [? H]; [by eexists|];
             unfold getitem at 1; rewrite H; cbn [res_bind]
         | |- context [getitem sv "seat_no"] =>
             destruct sv; try discriminate; reflexivity
         end.
Qed.

(** X12: on a record returned by [handle_options], building the
    [new_object] body never fails for a missing key; it raises, with
    [TypeError], exactly when the seat supplied was neither a mapping nor
    the empty string, since that seat is kept as it is and is then indexed
    by [seat_no]. *)
Theorem new_object_on_normalised_record (w : env)
    (issuer_id class_suffix object_suffix : string) (m r : gmap string pyval) :
  handle_options (VDict m) = Ok r ->
  (returns (DemoEventTicket.new_object w issuer_id class_suffix object_suffix r)
   \/ DemoEventTicket.new_object w issuer_id class_suffix object_suffix r
      = Raise TypeError) /\
  (DemoEventTicket.new_object w issuer_id class_suffix object_suffix r
   = Raise TypeError <->
   exists sv, m !! "seat" = Some sv /\ is_dict sv = false /\ sv <> VStr "").
Proof.
  intros Hr.
  assert (Hkeys : forall k, is_Some (defaults !! k) -> is_Some (r !! k))
    by (intros k; by apply (record_has_defaults m)).
  destruct (record_seat m r Hr)
    as [(rs & Hrs & Hsn & Hrow & Hm)|(sv & Hrsv & Hmsv & Hd & Hne)].
  - pose proof (new_object_of_record w issuer_id class_suffix object_suffix
                  r rs Hkeys Hrs Hsn Hrow) as [body Hbody].
    split; [left; by eexists|]. rewrite Hbody. split; [congruence|].
    intros (sv & Hsv & Hd & Hne).
    destruct Hm as [Hm|[Hm|[vd Hm]]]; rewrite Hm in Hsv;
      [congruence | congruence |].
    injection Hsv as <-. discriminate.
  - pose proof (new_object_seat_not_dict w issuer_id class_suffix object_suffix
                  r sv Hkeys Hrsv Hd) as Hraise.
    split; [by right|]. split; [|done]. intros _. by exists sv.
Qed.

Lemma new_object_on_normalised_record_witness :
  exists r,
    handle_options (VDict {[ "seat" := VStr "A1" ]}) = Ok r /\
    DemoEventTicket.new_object
      (sample_env (Ok VNone) (Ok VNone) (Ok VNone) (Ok VNone) (Ok "t"))
      "I" "C" "O" r = Raise TypeError.
Proof.
  destruct (handle_options_accepted {[ "seat" := VStr "A1" ]})
    as (r & Hr & _); [vm_compute; reflexivity|].
  exists r. split; [exact Hr|].
  apply (proj2 (proj2 (new_object_on_normalised_record _ "I" "C" "O" _ r Hr))).
  exists (VStr "A1"). repeat split; discriminate.
Defined.

(** X11: an [HttpError] raised by the object insertion never leaves
    [create_object]: with status 404 the result is [class_not_found], with
    any other status the initial [response_details] is returned as it is,
    status [unknown] and empty message; [has_error] is true in both. *)
Theorem create_object_insert_error_swallowed (w : env)
    (issuer_id class_suffix object_suffix : string) (data : gmap string pyval)
    (error_details body : pyval) (status_code : Z) (insert_details : pyval) :
  eventticketobject_get w (issuer_id +:+ "." +:+ object_suffix)
  = Raise (HttpError 404 error_details) ->
  DemoEventTicket.new_object w issuer_id class_suffix object_suffix data
  = Ok body ->
  eventticketobject_insert w body
  = Raise (HttpError status_code insert_details) ->
  exists co,
    outcome (DemoEventTicket.create_object w issuer_id class_suffix
               object_suffix data) = Ok co /\
    getitem co "has_error" = Ok (VBool true) /\
    getitem co "status" =
      Ok (VStr (if Z.eqb status_code 404 then "class_not_found" else "unknown")) /\
    (status_code <> 404 ->
     co = VDict (DemoEventTicket.response_details
                   (issuer_id +:+ "." +:+ object_suffix)) /\
     getitem co "message" = Ok (VStr "")).
Proof.
  intros Hget Hbody Hins. unfold DemoEventTicket.create_object.
  rewrite outcome_bind, outcome_attempt, outcome_call, Hget. cbv beta iota.
  change (Z.eqb 404 400) with false. change (negb (Z.eqb 404 404)) with false.
  cbv beta iota. rewrite outcome_bind, outcome_lift, Hbody. cbv beta iota.
  rewrite outcome_bind, outcome_attempt, outcome_call, Hins. cbv beta iota.
  destruct (Z.eqb status_code 404) eqn:E; rewrite outcome_ret.
  - eexists. split; [reflexivity|]. split; [reflexivity|].
    split; [reflexivity|].
    intros Hne. apply Z.eqb_eq in E. contradiction.
  - eexists. split; [reflexivity|]. split; [reflexivity|].
    split; [reflexivity|]. intros _. split; reflexivity.
Qed.

Lemma create_object_insert_error_swallowed_witness :
  exists co body,
    DemoEventTicket.new_object
      (sample_env (Ok VNone) (Ok VNone) (Raise (HttpError 404 VNone))
                  (Raise (HttpError 403 VNone)) (Ok "t"))
      "I" "C" "O" defaults = Ok body /\
    outcome (DemoEventTicket.create_object
               (sample_env (Ok VNone) (Ok VNone) (Raise (HttpError 404 VNone))
                           (Raise (HttpError 403 VNone)) (Ok "t"))
               "I" "C" "O" defaults) = Ok co /\
    getitem co "status" = Ok (VStr "unknown").
Proof.
  pose (w := sample_env (Ok VNone) (Ok VNone) (Raise (HttpError 404 VNone))
                        (Raise (HttpError 403 VNone)) (Ok "t")).
  destruct (new_object_of_record w "I" "C" "O" defaults Defaults.seat)
    as [body Hb]; [done | reflexivity | by eexists | by eexists |].
  destruct (create_object_insert_error_swallowed w "I" "C" "O" defaults
              VNone body 403 VNone eq_refl Hb eq_refl)
    as (co & Hco & _ & Hstatus & _).
  exists co, body. auto.
Defined.

(** ** More on the handler *)

Lemma issue_cases w i c o data :
  (outcome (issue w i c o data) = Ok error_response /\
   (raises (outcome (DemoEventTicket.create_class w i c data)) \/
    raises (outcome (DemoEventTicket.create_object w i c o data)) \/
    raises (outcome (DemoEventTicket.create_jwt_existing_objects w i o c)))) \/
  (exists cc co ce flag,
     outcome (DemoEventTicket.create_class w i c data) = Ok cc /\
     outcome (DemoEventTicket.create_object w i c o data) = Ok co /\
     outcome (DemoEventTicket.create_jwt_existing_objects w i o c) = Ok ce /\
     getitem co "has_error" = Ok (VBool flag) /\
     outcome (issue w i c o data)
     = Ok {| body := if flag then co else ce; status := 200 |}).
Proof.
  destruct (outcome (DemoEventTicket.create_class w i c data)) as [cc|e1] eqn:Hc.
  2:{ left. split; [apply issue_raises; rewrite Hc|]; left; by eexists. }
  destruct (outcome (DemoEventTicket.create_object w i c o data)) as [co|e2] eqn:Ho.
  2:{ left. split; [apply issue_raises; rewrite Ho|]; right; left; by eexists. }
  destruct (outcome (DemoEventTicket.create_jwt_existing_objects w i o c))
    as [ce|e3] eqn:He.
  2:{ left. split; [apply issue_raises; rewrite He|]; right; right; by eexists. }
  right. destruct (create_object_has_error _ _ _ _ _ _ Ho) as [flag Hflag].
  exists cc, co, ce, flag. repeat split; try reflexivity; try exact Hflag.
  rewrite (issue_outcome _ _ _ _ _ cc co ce Hc Ho He), Hflag.
  by destruct flag.
Qed.

Lemma missing_params_nil req :
  missing_params req = [] ->
  absent (args_get req "issuer_id") = false /\
  absent (args_get req "class_suffix") = false /\
  absent (args_get req "object_suffix") = false.
Proof.
  unfold missing_params.
  destruct (absent (args_get req "issuer_id")),
           (absent (args_get req "class_suffix")),
           (absent (args_get req "object_suffix")); cbn; intros H;
    first [ discriminate | auto ].
Qed.

(** X13: the handler answers every request: no exception leaves it,
    whatever the collaborators and the body do; the status is 400, 200 or
    500, and it is 400 exactly when an identifier is absent or empty. *)
Theorem create_class_always_responds (w : env) (req : request) :
  exists resp,
    outcome (create_class w req) = Ok resp /\
    (status resp = 400 \/ status resp = 200 \/ status resp = 500) /\
    (status resp = 400 <->
     absent (args_get req "issuer_id") = true \/
     absent (args_get req "class_suffix") = true \/
     absent (args_get req "object_suffix") = true).
Proof.
  unfold create_class.
  destruct (missing_params req) as [|x l] eqn:Hm.
  - destruct (missing_params_nil req Hm) as (H1 & H2 & H3).
    destruct (normalize_payload_returns req) as [data ->].
    rewrite bind_lift_ok.
    set (i := default "" (args_get req "issuer_id")).
    set (c := default "" (args_get req "class_suffix")).
    set (o := default "" (args_get req "object_suffix")).
    destruct (issue_cases w i c o data)
      as [[-> _]|(cc & co & ce & flag & _ & _ & _ & _ & ->)];
      eexists; (split; [reflexivity|]); cbn [status error_response].
    + split; [tauto|]. split; [discriminate|].
      intros [H|[H|H]]; congruence.
    + split; [tauto|]. split; [discriminate|].
      intros [H|[H|H]]; congruence.
  - eexists. split; [reflexivity|]. cbn [status missing_response].
    split; [tauto|]. split; [|reflexivity]. intros _.
    destruct (absent (args_get req "issuer_id")) eqn:E1; [tauto|].
    destruct (absent (args_get req "class_suffix")) eqn:E2; [tauto|].
    destruct (absent (args_get req "object_suffix")) eqn:E3; [tauto|].
    unfold missing_params in Hm. rewrite E1, E2, E3 in Hm. discriminate.
Qed.

(** X14: with the three identifiers present the status is 500 exactly
    when one of the three calls on the ticket raises, and 200 otherwise;
    in particular a failure reported in a result ([has_error] true) never
    gives a status other than 200. *)
Theorem create_class_status (w : env) (req : request)
    (issuer_id class_suffix object_suffix : string) :
  identifiers_present req issuer_id class_suffix object_suffix ->
  exists data resp,
    normalize_payload req = Ok data /\
    outcome (create_class w req) = Ok resp /\
    (status resp = 200 \/ status resp = 500) /\
    (status resp = 500 <->
     raises (outcome (DemoEventTicket.create_class w issuer_id class_suffix data)) \/
     raises (outcome (DemoEventTicket.create_object w issuer_id class_suffix
                        object_suffix data)) \/
     raises (outcome (DemoEventTicket.create_jwt_existing_objects w issuer_id
                        object_suffix class_suffix))).
Proof.
  intros Hid. destruct (normalize_payload_returns req) as [data Hn].
  rewrite (create_class_present w req _ _ _ data Hid Hn).
  exists data.
  destruct (issue_cases w issuer_id class_suffix object_suffix data)
    as [[-> Hr]|(cc & co & ce & flag & Hc & Ho & He & _ & ->)];
    eexists; (split; [exact Hn|]); (split; [reflexivity|]);
    cbn [status error_response].
  - split; [tauto|]. tauto.
  - split; [tauto|]. split; [discriminate|].
    rewrite Hc, Ho, He. intros [[e H]|[[e H]|[e H]]]; discriminate.
Qed.

Lemma create_class_status_witness :
  exists resp,
    outcome (create_class
               (sample_env (Raise OtherError) (Ok VNone) (Ok VNone) (Ok VNone)
                           (Ok "t"))
               (sample_request (Raise OtherError))) = Ok resp /\
    status resp = 500.
Proof.
  destruct (create_class_status
              (sample_env (Raise OtherError) (Ok VNone) (Ok VNone) (Ok VNone)
                          (Ok "t"))
              (sample_request (Raise OtherError)) "I" "C" "O"
              (sample_request_identifiers _))
    as (data & resp & _ & Hout & _ & Hiff).
  exists resp. split; [exact Hout|]. apply Hiff. left. by exists OtherError.
Defined.

Lemma save_link_no_has_error token :
  getitem (DemoEventTicket.save_link token) "has_error" = Raise KeyError.
Proof. reflexivity. Qed.

(** X15: the handler answers with the save link exactly when the object
    was created by this very request: class creation returned, the object
    lookup answered 404, the body was built and inserted, and signing
    returned. A pass that already exists never gets its link from this
    endpoint. *)
Theorem save_link_only_for_new_object (w : env) (req : request)
    (issuer_id class_suffix object_suffix token : string) :
  identifiers_present req issuer_id class_suffix object_suffix ->
  exists data, normalize_payload req = Ok data /\
    (outcome (create_class w req)
     = Ok {| body := DemoEventTicket.save_link token; status := 200 |} <->
     returns (outcome (DemoEventTicket.create_class w issuer_id class_suffix data)) /\
     (exists error_details body response,
        eventticketobject_get w (issuer_id +:+ "." +:+ object_suffix)
        = Raise (HttpError 404 error_details) /\
        DemoEventTicket.new_object w issuer_id class_suffix object_suffix data
        = Ok body /\
        eventticketobject_insert w body = Ok response) /\
     outcome (DemoEventTicket.create_jwt_existing_objects w issuer_id
                object_suffix class_suffix)
     = Ok (DemoEventTicket.save_link token)).
Proof.
  intros Hid. destruct (normalize_payload_returns req) as [data Hn].
  exists data. split; [exact Hn|].
  rewrite (create_class_present w req _ _ _ data Hid Hn).
  split.
  - intros Hout.
    destruct (issue_cases w issuer_id class_suffix object_suffix data)
      as [[Herr _]|(cc & co & ce & flag & Hc & Ho & He & Hflag & Hresp)].
    + rewrite Herr in Hout.
      apply (f_equal (fun x => match x with
                               | Ok resp => status resp
                               | Raise _ => 0
                               end)) in Hout.
      cbn in Hout. discriminate.
    + rewrite Hresp in Hout. injection Hout as Hbody.
      destruct flag.
      * subst co. rewrite save_link_no_has_error in Hflag. discriminate.
      * subst ce. split; [by eexists|]. split; [|exact He].
        destruct (create_object_result_flag _ _ _ _ _ _ Ho)
          as (flag & status & Hf & _ & _ & Hcreated).
        apply Hcreated. congruence.
  - intros ([cc Hc] & (ed & body & response & Hget & Hbody & Hins) & He).
    destruct (outcome (DemoEventTicket.create_object w issuer_id class_suffix
                         object_suffix data)) as [co|e] eqn:Ho.
    + rewrite (issue_outcome _ _ _ _ _ cc co _ Hc Ho He).
      revert Ho. unfold DemoEventTicket.create_object.
      rewrite outcome_bind, outcome_attempt, outcome_call, Hget.
      cbv beta iota.
      change (Z.eqb 404 400) with false.
      change (negb (Z.eqb 404 404)) with false. cbv beta iota.
      rewrite outcome_bind, outcome_lift, Hbody. cbv beta iota.
      rewrite outcome_bind, outcome_attempt, outcome_call, Hins.
      cbv beta iota. rewrite outcome_ret. intros [= <-].
      rewrite getitem_insert_eq. reflexivity.
    + exfalso. revert Ho. unfold DemoEventTicket.create_object.
      rewrite outcome_bind, outcome_attempt, outcome_call, Hget.
      cbv beta iota.
      change (Z.eqb 404 400) with false.
      change (negb (Z.eqb 404 404)) with false. cbv beta iota.
      rewrite outcome_bind, outcome_lift, Hbody. cbv beta iota.
      rewrite outcome_bind, outcome_attempt, outcome_call, Hins.
      cbv beta iota. rewrite outcome_ret. congruence.
Qed.

Lemma save_link_only_for_new_object_witness :
  outcome (create_class
             (sample_env (Ok VNone) (Ok VNone) (Raise (HttpError 404 VNone))
                         (Ok VNone) (Ok "t"))
             (sample_request (Raise OtherError)))
  = Ok {| body := DemoEventTicket.save_link "t"; status := 200 |}.
Proof.
  pose (w := sample_env (Ok VNone) (Ok VNone) (Raise (HttpError 404 VNone))
                        (Ok VNone) (Ok "t")).
  destruct (save_link_only_for_new_object w (sample_request (Raise OtherError))
              "I" "C" "O" "t" (sample_request_identifiers _))
    as (data & Hn & Hiff).
  assert (Hd : data = defaults).
  { rewrite (normalize_payload_no_payload (sample_request (Raise OtherError))
               eq_refl) in Hn. congruence. }
  subst data. apply Hiff. split; [by eexists|]. split; [|reflexivity].
  destruct (new_object_of_record w "I" "C" "O" defaults Defaults.seat)
    as [body Hb]; [done | reflexivity | by eexists | by eexists |].
  exists VNone, body, VNone. split; [reflexivity|].
  split; [exact Hb | reflexivity].
Defined.

(** X16: in a body that is a mapping with no mapping under a
    string-default key (so that normalisation returns), a seat supplied as
    a non-empty string, a number, a list or any value that is neither a
    mapping nor the empty string goes through normalisation unchanged and
    makes the request fail later: when class creation returns and the
    object lookup answers 404, the response is the 500 one, and the object
    is looked up but never inserted. *)
Theorem seat_not_a_mapping_gives_500 (w : env) (req : request)
    (issuer_id class_suffix object_suffix : string) (m : gmap string pyval)
    (sv error_details : pyval) :
  identifiers_present req issuer_id class_suffix object_suffix ->
  get_json req = Ok (VDict m) ->
  no_mapping_for_string_field m = true ->
  m !! "seat" = Some sv -> is_dict sv = false -> sv <> VStr "" ->
  eventticketobject_get w (issuer_id +:+ "." +:+ object_suffix)
  = Raise (HttpError 404 error_details) ->
  exists data, normalize_payload req = Ok data /\
    data !! "seat" = Some sv /\
    forall cc,
      outcome (DemoEventTicket.create_class w issuer_id class_suffix data) = Ok cc ->
      outcome (create_class w req) = Ok error_response /\
      trace (create_class w req) =
        trace (DemoEventTicket.create_class w issuer_id class_suffix data) ++
        [ObjectGet (issuer_id +:+ "." +:+ object_suffix)].
Proof.
  intros Hid Hj Hacc Hm Hd Hne Hget.
  destruct (handle_options_accepted m Hacc) as (r & Hr & _).
  assert (Hn : normalize_payload req = Ok r).
  { unfold normalize_payload. rewrite Hj. cbn [res_bind]. by rewrite Hr. }
  exists r. split; [exact Hn|].
  assert (Hseat : r !! "seat" = Some sv).
  { destruct (record_seat m r Hr)
      as [(rs & _ & _ & _ & Hm')|(sv' & Hrsv & Hmsv & _ & _)].
    - destruct Hm' as [Hm'|[Hm'|[vd Hm']]]; rewrite Hm' in Hm;
        [congruence | congruence |].
      injection Hm as <-. discriminate.
    - congruence. }
  split; [exact Hseat|]. intros cc Hc.
  assert (Hkeys : forall k, is_Some (defaults !! k) -> is_Some (r !! k))
    by (intros k; by apply (record_has_defaults m)).
  pose proof (new_object_seat_not_dict w issuer_id class_suffix object_suffix
                r sv Hkeys Hseat Hd) as Hbody.
  assert (Hobj : DemoEventTicket.create_object w issuer_id class_suffix
                   object_suffix r
                 = (Raise TypeError,
                    [ObjectGet (issuer_id +:+ "." +:+ object_suffix)])).
  { unfold DemoEventTicket.create_object, bind, attempt, call, lift.
    cbn [fst snd]. rewrite Hget. cbv beta iota.
    change (Z.eqb 404 400) with false.
    change (negb (Z.eqb 404 404)) with false. cbv beta iota.
    cbn [fst snd]. rewrite Hbody. reflexivity. }
  rewrite (create_class_present w req _ _ _ r Hid Hn). split.
  - apply issue_raises. right; left. rewrite Hobj. by eexists.
  - unfold issue. rewrite trace_bind, trace_attempt, outcome_attempt.
    cbv beta iota. rewrite trace_bind, Hc. cbv beta iota.
    rewrite trace_bind, Hobj. cbn [trace outcome fst snd].
    rewrite <- app_assoc. f_equal.
    rewrite outcome_bind, Hc. cbv beta iota.
    rewrite outcome_bind. cbn [outcome fst]. reflexivity.
Qed.

Lemma seat_not_a_mapping_gives_500_witness :
  outcome (create_class
             (sample_env (Ok VNone) (Ok VNone) (Raise (HttpError 404 VNone))
                         (Ok VNone) (Ok "t"))
             (sample_request (Ok (VDict {[ "seat" := VStr "A1" ]}))))
  = Ok error_response.
Proof.
  pose (w := sample_env (Ok VNone) (Ok VNone) (Raise (HttpError 404 VNone))
                        (Ok VNone) (Ok "t")).
  assert (Hacc : no_mapping_for_string_field {[ "seat" := VStr "A1" ]} = true)
    by (vm_compute; reflexivity).
  destruct (seat_not_a_mapping_gives_500 w
              (sample_request (Ok (VDict {[ "seat" := VStr "A1" ]})))
              "I" "C" "O" {[ "seat" := VStr "A1" ]} (VStr "A1") VNone
              (sample_request_identifiers _) eq_refl Hacc eq_refl eq_refl)
    as (data & _ & _ & Hresp); [discriminate | reflexivity |].
  exact (proj1 (Hresp (DemoEventTicket.class_exists "I" "C") eq_refl)).
Defined.

(** ** The update, patch, expire and message methods *)

Lemma lookup_then_http_error rid lookup sc ed build sent send :
  Lifecycle.lookup_then rid lookup (Raise (HttpError sc ed)) build sent send
  = (Ok rid, [lookup]).
Proof. reflexivity. Qed.

(** X17: none of the seven methods writes after a failed lookup: when the
    lookup raises an [HttpError], with status 404 or any other, the method
    makes no further request and returns the resource id as if nothing had
    happened. *)
Theorem lifecycle_no_write_after_http_error (w : Lifecycle.client)
    (issuer_id suffix header body : string) (status_code : Z)
    (error_details : pyval) :
  let rid := issuer_id +:+ "." +:+ suffix in
  (Lifecycle.class_get w rid = Raise (HttpError status_code error_details) ->
   Forall (fun x => x = (Ok rid, [Lifecycle.LookupClass rid]))
     [ Lifecycle.update_class w issuer_id suffix;
       Lifecycle.patch_class w issuer_id suffix;
       Lifecycle.add_class_message w issuer_id suffix header body ]) /\
  (Lifecycle.object_get w rid = Raise (HttpError status_code error_details) ->
   Forall (fun x => x = (Ok rid, [Lifecycle.LookupObject rid]))
     [ Lifecycle.update_object w issuer_id suffix;
       Lifecycle.patch_object w issuer_id suffix;
       Lifecycle.expire_object w issuer_id suffix;
       Lifecycle.add_object_message w issuer_id suffix header body ]).
Proof.
  intros rid. split; intros Hget; repeat apply Forall_cons_2;
    try apply Forall_nil_2;
    unfold Lifecycle.update_class, Lifecycle.patch_class,
      Lifecycle.add_class_message, Lifecycle.update_object,
      Lifecycle.patch_object, Lifecycle.expire_object,
      Lifecycle.add_object_message; fold rid; rewrite Hget;
    apply lookup_then_http_error.
Qed.

Lemma lifecycle_no_write_after_http_error_witness :
  Lifecycle.expire_object
    (Lifecycle.sample_client (Ok VNone) (Raise (HttpError 403 VNone)) (Ok VNone))
    "I" "O"
  = (Ok "I.O", [Lifecycle.LookupObject "I.O"]).
Proof.
  destruct (lifecycle_no_write_after_http_error
              (Lifecycle.sample_client (Ok VNone) (Raise (HttpError 403 VNone))
                                       (Ok VNone))
              "I" "O" "h" "b" 403 VNone) as [_ Hobj].
  specialize (Hobj eq_refl).
  apply Forall_cons_1 in Hobj as [_ Hobj].
  apply Forall_cons_1 in Hobj as [_ Hobj].
  apply Forall_cons_1 in Hobj as [Hexp _].
  exact Hexp.
Defined.

Lemma truthy_dict_with_key (links : gmap string pyval) k v :
  links !! k = Some v -> truthy (VDict links) = true.
Proof.
  intros Hk. cbn. rewrite bool_decide_false; [reflexivity|].
  intros ->. by rewrite lookup_empty in Hk.
Qed.

(** X18: [update_object] on a found object that has links keeps them, in
    their order, and adds the new link last; every other attribute of the
    object is sent back as it was found. The method makes the lookup, then
    this one update, and returns the object id when the update returns. *)
Theorem update_object_appends_link (w : Lifecycle.client)
    (issuer_id object_suffix : string) (d links : gmap string pyval)
    (uris : list pyval) (response : pyval) :
  let object_id := issuer_id +:+ "." +:+ object_suffix in
  let body :=
    VDict (<["linksModuleData" :=
               VDict (<["uris" := VList (uris ++ [Lifecycle.new_link])]> links)]> d) in
  Lifecycle.object_get w object_id = Ok (VDict d) ->
  d !! "linksModuleData" = Some (VDict links) ->
  links !! "uris" = Some (VList uris) ->
  Lifecycle.object_update w object_id body = Ok response ->
  Lifecycle.update_object w issuer_id object_suffix
  = (Ok object_id,
     [Lifecycle.LookupObject object_id; Lifecycle.UpdateObject object_id body]) /\
  forall k, k <> "linksModuleData" -> getitem body k = getitem (VDict d) k.
Proof.
  intros object_id body Hget Hlinks Huris Hupd.
  assert (Hbody : Lifecycle.updated_object (VDict d) = Ok body).
  { unfold Lifecycle.updated_object, Lifecycle.dict_get. rewrite Hlinks.
    change (default VNone (Some (VDict links))) with (VDict links).
    cbn [res_bind]. rewrite (truthy_dict_with_key links _ _ Huris).
    cbn [negb res_bind]. unfold Lifecycle.append_link, getitem.
    rewrite Hlinks. cbn [res_bind]. rewrite Huris. reflexivity. }
  split.
  - unfold Lifecycle.update_object. fold object_id.
    unfold Lifecycle.lookup_then. rewrite Hget, Hbody, Hupd. reflexivity.
  - intros k Hk. unfold body, getitem. by rewrite lookup_insert_ne.
Qed.

Lemma update_object_appends_link_witness :
  Lifecycle.update_object
    (Lifecycle.sample_client (Ok VNone)
       (Ok (VDict {[ "id" := VStr "I.O";
                     "linksModuleData" :=
                       VDict {[ "uris" := VList [VStr "first"] ]} ]}))
       (Ok VNone))
    "I" "O"
  = (Ok "I.O",
     [ Lifecycle.LookupObject "I.O";
       Lifecycle.UpdateObject "I.O"
         (VDict (<["linksModuleData" :=
                     VDict (<["uris" := VList [VStr "first"; Lifecycle.new_link]]>
                              {[ "uris" := VList [VStr "first"] ]})]>
                   {[ "id" := VStr "I.O";
                      "linksModuleData" :=
                        VDict {[ "uris" := VList [VStr "first"] ]} ]})) ]).
Proof.
  apply (update_object_appends_link
           (Lifecycle.sample_client (Ok VNone)
              (Ok (VDict {[ "id" := VStr "I.O";
                            "linksModuleData" :=
                              VDict {[ "uris" := VList [VStr "first"] ]} ]}))
              (Ok VNone))
           "I" "O" _ {[ "uris" := VList [VStr "first"] ]} [VStr "first"] VNone);
    reflexivity.
Defined.

Lemma getitem_list_uris :
  getitem (VDict (list_to_map [ ("uris", VList []) ])) "uris" = Ok (VList []).
Proof. reflexivity. Qed.

(** X19: [update_object] on a found object without links (no
    [linksModuleData], or an empty or [None] one) sends the object with a
    [linksModuleData] whose [uris] is the new link alone. *)
Theorem update_object_first_link (w : Lifecycle.client)
    (issuer_id object_suffix : string) (d : gmap string pyval)
    (response : pyval) :
  let object_id := issuer_id +:+ "." +:+ object_suffix in
  let body :=
    VDict (<["linksModuleData" :=
               dict_of [ ("uris", VList [Lifecycle.new_link]) ]]> d) in
  Lifecycle.object_get w object_id = Ok (VDict d) ->
  truthy (default VNone (d !! "linksModuleData")) = false ->
  Lifecycle.object_update w object_id body = Ok response ->
  Lifecycle.update_object w issuer_id object_suffix
  = (Ok object_id,
     [Lifecycle.LookupObject object_id; Lifecycle.UpdateObject object_id body]).
Proof.
  intros object_id body Hget Hfalsy Hupd.
  assert (Hbody : Lifecycle.updated_object (VDict d) = Ok body).
  { unfold Lifecycle.updated_object, Lifecycle.dict_get.
    cbn [res_bind]. rewrite Hfalsy. cbn [negb Lifecycle.setitem res_bind].
    unfold Lifecycle.append_link.
    rewrite getitem_insert_eq. cbn [res_bind].
    unfold dict_of at 1. rewrite getitem_list_uris. cbn [res_bind].
    cbn [Lifecycle.list_append app res_bind Lifecycle.setitem dict_of].
    unfold body, dict_of.
    rewrite !list_to_map_cons, list_to_map_nil, !insert_insert_eq.
    reflexivity. }
  unfold Lifecycle.update_object. fold object_id.
  unfold Lifecycle.lookup_then. by rewrite Hget, Hbody, Hupd.
Qed.

Lemma update_object_first_link_witness :
  Lifecycle.update_object
    (Lifecycle.sample_client (Ok VNone)
       (Ok (VDict {[ "id" := VStr "I.O"; "linksModuleData" := VDict ∅ ]}))
       (Ok VNone))
    "I" "O"
  = (Ok "I.O",
     [ Lifecycle.LookupObject "I.O";
       Lifecycle.UpdateObject "I.O"
         (VDict (<["linksModuleData" :=
                     dict_of [ ("uris", VList [Lifecycle.new_link]) ]]>
                   {[ "id" := VStr "I.O"; "linksModuleData" := VDict ∅ ]})) ]).
Proof.
  apply (update_object_first_link
           (Lifecycle.sample_client (Ok VNone)
              (Ok (VDict {[ "id" := VStr "I.O"; "linksModuleData" := VDict ∅ ]}))
              (Ok VNone))
           "I" "O" _ VNone); reflexivity.
Defined.

(** The patch body, from the updated object. *)
Lemma patch_body_eq (response : pyval) :
  Lifecycle.patch_body response =
  let! updated := Lifecycle.updated_object response in
  let! links := getitem updated "linksModuleData" in
  Ok (VDict {[ "linksModuleData" := links ]}).
Proof.
  unfold Lifecycle.patch_body, Lifecycle.updated_object, Lifecycle.dict_get.
  destruct response as [| | | | | |d]; try reflexivity.
  cbn [res_bind].
  destruct (truthy (default VNone (d !! "linksModuleData"))) eqn:Ht;
    cbn [negb res_bind].
  - destruct (d !! "linksModuleData") as [links|] eqn:Hl; [|discriminate].
    change (default VNone (Some links)) with links in Ht.
    unfold getitem at 1. rewrite Hl. cbn [res_bind Lifecycle.setitem].
    unfold Lifecycle.append_link. rewrite getitem_insert_eq.
    unfold getitem at 2. rewrite Hl. cbn [res_bind].
    destruct (getitem links "uris") as [uris|e]; [|reflexivity].
    cbn [res_bind].
    destruct (Lifecycle.list_append uris Lifecycle.new_link) as [uris'|e];
      [|reflexivity].
    cbn [res_bind].
    destruct (Lifecycle.setitem links "uris" uris') as [links'|e];
      [|reflexivity].
    cbn [res_bind Lifecycle.setitem].
    rewrite (getitem_insert_eq d "linksModuleData" links'). cbn [res_bind].
    rewrite insert_insert_eq, insert_empty. reflexivity.
  - cbn [Lifecycle.setitem res_bind]. unfold Lifecycle.append_link.
    rewrite !getitem_insert_eq. cbn [res_bind]. unfold dict_of.
    rewrite !getitem_list_uris.
    cbn [Lifecycle.list_append app res_bind Lifecycle.setitem].
    rewrite (getitem_insert_eq _ "linksModuleData"). cbn [res_bind].
    rewrite !insert_insert_eq, insert_empty. reflexivity.
Qed.

(** X20: [patch_object] sends exactly the [linksModuleData] that
    [update_object] would send, and nothing else: on every response the
    patch body is the one-key dict holding the links of the updated
    object, and it fails with the same exception when building the updated
    object fails. *)
Theorem patch_body_is_links_of_updated_object (response : pyval) :
  Lifecycle.patch_body response =
  let! updated := Lifecycle.updated_object response in
  let! links := getitem updated "linksModuleData" in
  Ok (VDict {[ "linksModuleData" := links ]}).
Proof. apply patch_body_eq. Qed.

(** X21: a found object whose [linksModuleData] is a non-empty mapping
    without [uris] makes both [update_object] and [patch_object] raise
    [KeyError] right after the lookup: nothing is written. *)
Theorem links_without_uris_raise (w : Lifecycle.client)
    (issuer_id object_suffix : string) (d links : gmap string pyval) :
  let object_id := issuer_id +:+ "." +:+ object_suffix in
  Lifecycle.object_get w object_id = Ok (VDict d) ->
  d !! "linksModuleData" = Some (VDict links) ->
  links <> ∅ ->
  links !! "uris" = None ->
  Lifecycle.update_object w issuer_id object_suffix
  = (Raise KeyError, [Lifecycle.LookupObject object_id]) /\
  Lifecycle.patch_object w issuer_id object_suffix
  = (Raise KeyError, [Lifecycle.LookupObject object_id]).
Proof.
  intros object_id Hget Hlinks Hne Huris.
  assert (Hu : Lifecycle.updated_object (VDict d) = Raise KeyError).
  { unfold Lifecycle.updated_object, Lifecycle.dict_get. rewrite Hlinks.
    change (default VNone (Some (VDict links))) with (VDict links).
    cbn [res_bind truthy]. rewrite bool_decide_false by done.
    cbn [negb res_bind]. unfold Lifecycle.append_link, getitem.
    rewrite Hlinks. cbn [res_bind]. by rewrite Huris. }
  assert (Hp : Lifecycle.patch_body (VDict d) = Raise KeyError)
    by (rewrite patch_body_eq, Hu; reflexivity).
  unfold Lifecycle.update_object, Lifecycle.patch_object. fold object_id.
  unfold Lifecycle.lookup_then. by rewrite Hget, Hu, Hp.
Qed.

Lemma links_without_uris_raise_witness :
  Lifecycle.patch_object
    (Lifecycle.sample_client (Ok VNone)
       (Ok (VDict {[ "linksModuleData" := VDict {[ "x" := VInt 1 ]} ]}))
       (Ok VNone))
    "I" "O"
  = (Raise KeyError, [Lifecycle.LookupObject "I.O"]).
Proof.
  apply (links_without_uris_raise
           (Lifecycle.sample_client (Ok VNone)
              (Ok (VDict {[ "linksModuleData" := VDict {[ "x" := VInt 1 ]} ]}))
              (Ok VNone))
           "I" "O" {[ "linksModuleData" := VDict {[ "x" := VInt 1 ]} ]}
           {[ "x" := VInt 1 ]}).
  - reflexivity.
  - reflexivity.
  - intros H. apply (f_equal (fun m : gmap string pyval => m !! "x")) in H.
    vm_compute in H. congruence.
  - reflexivity.
Defined.

(** X22: on a record returned by [handle_options], [create_class] never
    fails for a missing key: after a 404 lookup it always reaches the
    insertion, and the class it inserts carries the record's event name
    and issuer name and the composite id. *)
Theorem create_class_on_normalised_record (w : env)
    (issuer_id class_suffix : string) (m r : gmap string pyval)
    (error_details : pyval) :
  let class_id := issuer_id +:+ "." +:+ class_suffix in
  handle_options (VDict m) = Ok r ->
  eventticketclass_get w class_id = Raise (HttpError 404 error_details) ->
  exists body event_name issuer_name,
    r !! "event_name" = Some event_name /\
    r !! "issuer_name" = Some issuer_name /\
    trace (DemoEventTicket.create_class w issuer_id class_suffix r)
    = [ClassGet class_id; ClassInsert body] /\
    getitem body "id" = Ok (VStr class_id) /\
    getitem body "issuerName" = Ok (VStr (fstr w issuer_name)) /\
    getitem body "eventName" = Ok (localized (fstr w event_name)).
Proof.
  intros class_id Hr Hget.
  destruct (record_has_defaults m r "event_name" Hr) as [en Hen]; [by eexists|].
  destruct (record_has_defaults m r "issuer_name" Hr) as [isn His]; [by eexists|].
  eexists _, en, isn. split; [exact Hen|]. split; [exact His|].
  split; [|split; [|split]].
  - unfold DemoEventTicket.create_class. fold class_id.
    rewrite trace_bind, trace_attempt, trace_call, outcome_attempt,
      outcome_call, Hget. cbv beta iota.
    change (Z.eqb 404 400) with false.
    change (negb (Z.eqb 404 404)) with false. cbv beta iota.
    rewrite trace_bind, trace_lift, outcome_lift.
    unfold getitem at 1. rewrite Hen. cbv beta iota.
    rewrite trace_bind, trace_lift, outcome_lift.
    unfold getitem at 1. rewrite His. cbv beta iota.
    rewrite trace_bind, trace_call, outcome_call.
    cbn [app]. f_equal.
    destruct (eventticketclass_insert w _); reflexivity.
  - reflexivity.
  - reflexivity.
  - reflexivity.
Qed.

Lemma create_class_on_normalised_record_witness :
  exists r body event_name,
    handle_options (VDict {[ "event_name" := VStr "Launch" ]}) = Ok r /\
    r !! "event_name" = Some event_name /\
    trace (DemoEventTicket.create_class
             (sample_env (Raise (HttpError 404 VNone)) (Ok VNone) (Ok VNone)
                         (Ok VNone) (Ok "t"))
             "I" "C" r)
    = [ClassGet "I.C"; ClassInsert body].
Proof.
  destruct (handle_options_accepted {[ "event_name" := VStr "Launch" ]})
    as (r & Hr & _); [vm_compute; reflexivity|].
  destruct (create_class_on_normalised_record
              (sample_env (Raise (HttpError 404 VNone)) (Ok VNone) (Ok VNone)
                          (Ok VNone) (Ok "t"))
              "I" "C" _ r VNone Hr eq_refl)
    as (body & en & isn & Hen & _ & Htrace & _).
  exists r, body, en. auto.
Defined.
